(** * driverlib: the backend abstraction and transport layer

    A shallow embedding of the core of [driverlib]: the attribute guard
    ([utils.py]), the backend registry ([_backend_manager.py]), the two
    backends ([visa/backends/pyvisa_backend.py], [logger_backend.py]) and
    the driver base class ([visa_driver.py]).

    Python objects are modelled as follows.
    - Text ([str]) is a [string] whose characters are the code points
      0..255; [lower] and [strip] follow Python on that range.
    - Calls into libraries the repository does not contain (pyvisa,
      logging, print) append an [event] to a trace; what the visa library
      answers is given by a [Host], whose answers may depend on the whole
      history of calls.
    - Exceptions are the left summand of the result of a computation in
      the monad [M]; the process-wide state threaded through [M] holds the
      module global [visa_backend], the levels of the loggers and the trace.
    - An instance is a class (its attributes, plain or property) with an
      instance dictionary. *)

From stdpp Require Import gmap strings list.
From Stdlib Require Import ZArith NArith QArith DecimalString Ascii String List Lia.
Import ListNotations.

Local Close Scope Q_scope.

Local Open Scope string_scope.

(** ** Text *)

(** [str.isspace] on the code points 0..255: tab to carriage return, the
    four separators 28..31, the space, NEL (133) and the no-break space. *)
Definition is_space (c : ascii) : bool :=
  let n := N_of_ascii c in
  (((9 <=? n) && (n <=? 13)) || ((28 <=? n) && (n <=? 32))
   || (n =? 133) || (n =? 160))%N.

Fixpoint lstrip (s : string) : string :=
  match s with
  | EmptyString => EmptyString
  | String c s' => if is_space c then lstrip s' else s
  end.

Definition is_empty (s : string) : bool :=
  match s with EmptyString => true | String _ _ => false end.

Fixpoint rstrip (s : string) : string :=
  match s with
  | EmptyString => EmptyString
  | String c s' =>
      let r := rstrip s' in
      if is_space c && is_empty r then EmptyString else String c r
  end.

(** [str.strip()] with no argument. *)
Definition strip (s : string) : string := rstrip (lstrip s).

(** [str.lower] on one code point of 0..255: the letters A..Z and the
    capital letters 192..222 (the multiplication sign 215 apart). *)
Definition lower_char (c : ascii) : ascii :=
  let n := N_of_ascii c in
  if (((65 <=? n) && (n <=? 90))
      || ((192 <=? n) && (n <=? 222) && negb (n =? 215)))%N
  then ascii_of_N (n + 32) else c.

Fixpoint lower (s : string) : string :=
  match s with
  | EmptyString => EmptyString
  | String c s' => String (lower_char c) (lower s')
  end.

(** [sub in s] for two texts. *)
Fixpoint contains_text (sub s : string) : bool :=
  String.prefix sub s ||
  match s with
  | EmptyString => false
  | String _ s' => contains_text sub s'
  end.

(** ** Exceptions and events *)

Inductive exn : Type :=
| VisaIOError (msg : string)
| ValueError (msg : string)
| TypeError (msg : string)
| AttributeError (msg : string).

Definition handle := nat.

(** [logging.DEBUG] and [logging.INFO]. *)
Definition DEBUG : Z := 10.
Definition INFO : Z := 20.

(** One call into a library outside the repository.  [EvOpenResource]
    records the call of [rm.open_resource] with the handle it returned,
    if it returned one; the other resource events record the call whether
    or not it raised. *)
Inductive event : Type :=
| EvResourceManager (visa_library : string)
| EvOpenResource (rm : string) (location : option string) (open_timeout : Z)
    (opened : option handle)
| EvSetWriteTermination (h : handle) (termination : string)
| EvSetTimeout (h : handle) (timeout : Z)
| EvWrite (h : handle) (message : string)
| EvRead (h : handle)
| EvQuery (h : handle) (message : string)
| EvClose (h : handle)
| EvRmClose (rm : string)
| EvLog (logger : string) (level : Z) (msg : string)
| EvPrint (text : string)
| EvDouble (double : string) (method : string) (message : option string).

(** The resource events: everything that reaches for the instrument. *)
Definition is_io (e : event) : bool :=
  match e with
  | EvOpenResource _ _ _ _ | EvSetWriteTermination _ _ | EvSetTimeout _ _
  | EvWrite _ _ | EvRead _ | EvQuery _ _ | EvClose _ => true
  | _ => false
  end.

Definition is_log (e : event) : bool :=
  match e with EvLog _ _ _ => true | _ => false end.

(** How many times handle [h] was closed in a trace. *)
Fixpoint closes (h : handle) (tr : list event) : nat :=
  match tr with
  | [] => 0
  | EvClose h' :: tr' => (if Nat.eqb h h' then 1 else 0) + closes h tr'
  | _ :: tr' => closes h tr'
  end.

(** The handle [rm.open_resource] returns next: handles are numbered in
    the order in which they are opened. *)
Fixpoint opened_so_far (tr : list event) : nat :=
  match tr with
  | [] => 0
  | EvOpenResource _ _ _ (Some _) :: tr' => S (opened_so_far tr')
  | _ :: tr' => opened_so_far tr'
  end.

(** ** The host: platform and visa library

    Every answer is a function of the calls made so far, so a host may
    fail at any point of any run. [None] stands for a call that returns. *)
Class Host : Type := {
  sys_platform : string;
  visa_open_resource : list event -> string -> option string -> Z -> option exn;
  visa_set_timeout : list event -> handle -> Z -> option exn;
  visa_write : list event -> handle -> string -> option exn;
  visa_read : list event -> handle -> exn + string;
  visa_query : list event -> handle -> string -> exn + string;
  visa_close : list event -> handle -> option exn
}.

(** ** Backends as values *)

(** A class that satisfies the backend protocol without being one of the
    two of the repository (a test double).  Its methods answer from the
    history of calls, like the host. *)
Record TestDouble : Type := {
  td_name : string;
  td_init : list event -> option exn;
  td_write : list event -> string -> option Z -> option exn;
  td_query : list event -> string -> option Z -> exn + string;
  td_read : list event -> option Z -> exn + string;
  td_write_and_read : list event -> string -> option Z -> exn + string;
  td_close : list event -> option exn
}.

(** [Type[BackendProtocol]]: the classes the registry can hold. *)
Inductive BackendType : Type :=
| PyVisaBackend
| LoggerBackend
| TestDoubleBackend (t : TestDouble).

(** The fields of a [PyVisaBackend] instance. The resource manager is
    identified by the visa library it was created for. *)
Record PyVisaBackendObj : Type := {
  endline : string;
  rm : string;
  resource_location : option string;
  pv_logger : string
}.

(** A backend instance. A logger is referred to by its name. *)
Inductive Backend : Type :=
| PyVisaBackendInst (self : PyVisaBackendObj)
| LoggerBackendInst (logger : string)
| TestDoubleInst (t : TestDouble).

Definition backend_type (b : Backend) : BackendType :=
  match b with
  | PyVisaBackendInst _ => PyVisaBackend
  | LoggerBackendInst _ => LoggerBackend
  | TestDoubleInst t => TestDoubleBackend t
  end.

(** ** Python values *)

(** A float [m * 2^e] is kept as the pair [m], [e]. *)
#[warnings="-register-all"]
Inductive pyvalue : Type :=
| PyNone
| PyBool (b : bool)
| PyInt (z : Z)
| PyFloat (m e : Z)
| PyStr (s : string)
| PyList (l : list pyvalue)
| PyLogger (name : string)
| PyBackend (b : Backend)
| PyFunction (qualname : string).

Abbreviation attrs := (gmap string pyvalue).

(** ** Process state and the monad of computations *)

Record world : Type := mkWorld {
  visa_backend : option BackendType;
  logger_levels : gmap string Z;
  trace : list event
}.

Definition set_visa_backend (r : option BackendType) (w : world) : world :=
  mkWorld r (logger_levels w) (trace w).

Definition M (A : Type) : Type := world -> (exn + A) * world.

Definition ret {A} (a : A) : M A := fun w => (inr a, w).

Definition raise {A} (e : exn) : M A := fun w => (inl e, w).

Definition bind {A B} (m : M A) (f : A -> M B) : M B :=
  fun w =>
    match m w with
    | (inl e, w') => (inl e, w')
    | (inr a, w') => f a w'
    end.

Notation "'do' x <- m ;; k" := (bind m (fun x => k))
  (at level 10, x name, m at level 99, k at level 200).
Notation "m ;;; k" := (bind m (fun _ => k))
  (at level 100, k at level 200, right associativity).

(** Appends one event to the trace. *)
Definition emit (e : event) : M unit :=
  fun w => (inr tt, mkWorld (visa_backend w) (logger_levels w) (trace w ++ [e])).

(** Turns the answer of a host or of a test double into an outcome. *)
Definition outcome (o : option exn) : M unit :=
  match o with
  | None => ret tt
  | Some e => raise e
  end.

Definition answer {A} (o : exn + A) : M A :=
  match o with
  | inl e => raise e
  | inr a => ret a
  end.

(** Reads the trace, for the calls whose answer depends on it. *)
Definition history : M (list event) := fun w => (inr (trace w), w).

(** ** Logging *)

(** [logging.getLogger(name)]: the process-wide logger of that name. A
    logger nobody gave a level to has level 0 ([NOTSET]). *)
Definition getLogger (name : string) : M string := ret name.

Definition level_of (lg : string) (w : world) : Z :=
  default 0%Z (logger_levels w !! lg).

(** [logger.level]. *)
Definition Logger_level (lg : string) : M Z :=
  fun w => (inr (level_of lg w), w).

Definition Logger_setLevel (lg : string) (level : Z) : M unit :=
  fun w =>
    (inr tt, mkWorld (visa_backend w) (<[lg := level]> (logger_levels w)) (trace w)).

(** [logger.info(fmt, arg)] and [logger.debug(fmt, arg)]: the call is
    recorded with the formatted message. *)
Definition Logger_log (lg : string) (level : Z) (msg : string) : M unit :=
  emit (EvLog lg level msg).

(** [logging.getLogger(__name__)] followed by [setLevel(logging.INFO)],
    the default every constructor falls back to. *)
Definition default_logger (module_name : string) (logger : option string) : M string :=
  match logger with
  | None =>
      do l <- getLogger module_name ;;
      Logger_setLevel l INFO ;;;
      ret l
  | Some l => ret l
  end.

Section Model.
Context {host : Host}.

(** ** The calls into the visa library *)

Definition ResourceManager (visa_library : string) : M string :=
  emit (EvResourceManager visa_library) ;;;
  ret visa_library.

Definition rm_open_resource (rm : string) (location : option string)
    (open_timeout : Z) : M handle :=
  do tr <- history ;;
  match visa_open_resource tr rm location open_timeout with
  | Some e => emit (EvOpenResource rm location open_timeout None) ;;; raise e
  | None =>
      let h := opened_so_far tr in
      emit (EvOpenResource rm location open_timeout (Some h)) ;;;
      ret h
  end.

Definition resource_set_write_termination (h : handle) (t : string) : M unit :=
  emit (EvSetWriteTermination h t).

Definition resource_set_timeout (h : handle) (t : Z) : M unit :=
  do tr <- history ;;
  emit (EvSetTimeout h t) ;;;
  outcome (visa_set_timeout tr h t).

Definition resource_write (h : handle) (message : string) : M unit :=
  do tr <- history ;;
  emit (EvWrite h message) ;;;
  outcome (visa_write tr h message).

Definition resource_read (h : handle) : M string :=
  do tr <- history ;;
  emit (EvRead h) ;;;
  answer (visa_read tr h).

Definition resource_query (h : handle) (message : string) : M string :=
  do tr <- history ;;
  emit (EvQuery h message) ;;;
  answer (visa_query tr h message).

Definition resource_close (h : handle) : M unit :=
  do tr <- history ;;
  emit (EvClose h) ;;;
  outcome (visa_close tr h).

Definition rm_close (rm : string) : M unit := emit (EvRmClose rm).

(** ** OpenResource: the scoped connection *)

Record OpenResource : Type := {
  or_rm : string;
  or_resource_location : option string;
  or_write_termination : string;
  or_timeout : option Z
}.

Definition OpenResource_enter (cm : OpenResource) : M handle :=
  do resource <- rm_open_resource (or_rm cm) (or_resource_location cm) 1000 ;;
  resource_set_write_termination resource (or_write_termination cm) ;;;
  match or_timeout cm with
  | Some t => resource_set_timeout resource t
  | None => ret tt
  end ;;;
  ret resource.

Definition OpenResource_exit (resource : handle) : M unit :=
  resource_close resource.

(** [with cm as resource: body]. When [__enter__] raises, the body and
    [__exit__] do not run. Otherwise [__exit__] runs after the body,
    whether the body returned or raised; it returns [None], so an
    exception of the body is raised again, unless [__exit__] itself
    raises. *)
Definition with_OpenResource {A} (cm : OpenResource) (body : handle -> M A) : M A :=
  fun w =>
    match OpenResource_enter cm w with
    | (inl e, w1) => (inl e, w1)
    | (inr resource, w1) =>
        let (r, w2) := body resource w1 in
        match OpenResource_exit resource w2 with
        | (inl e, w3) => (inl e, w3)
        | (inr _, w3) => (r, w3)
        end
    end.

(** ** PyVisaBackend *)

Definition PyVisaBackend_scope (self : PyVisaBackendObj) (timeout : option Z)
    : OpenResource :=
  {| or_rm := rm self;
     or_resource_location := resource_location self;
     or_write_termination := endline self;
     or_timeout := timeout |}.

Definition PyVisaBackend_write (self : PyVisaBackendObj) (message : string)
    (timeout : option Z) : M unit :=
  with_OpenResource (PyVisaBackend_scope self timeout)
    (fun resource => resource_write resource message).

Definition PyVisaBackend_query (self : PyVisaBackendObj) (message : string)
    (timeout : option Z) : M string :=
  with_OpenResource (PyVisaBackend_scope self timeout)
    (fun resource =>
       do r <- resource_query resource message ;;
       ret (strip r)).

Definition PyVisaBackend_read (self : PyVisaBackendObj) (timeout : option Z)
    : M string :=
  with_OpenResource (PyVisaBackend_scope self timeout)
    (fun resource =>
       do r <- resource_read resource ;;
       ret (strip r)).

Definition PyVisaBackend_write_and_read (self : PyVisaBackendObj)
    (message : string) (timeout : option Z) : M string :=
  with_OpenResource (PyVisaBackend_scope self timeout)
    (fun resource =>
       resource_write resource message ;;;
       do r <- resource_read resource ;;
       ret (strip r)).

Definition PyVisaBackend_close (self : PyVisaBackendObj) : M unit :=
  rm_close (rm self).

(** The instance as the assignments of [__init__] leave it, before the
    identification query. *)
Definition PyVisaBackend_fields (resource_location : option string)
    (endline : string) (rm logger : string) : PyVisaBackendObj :=
  {| endline := endline;
     rm := rm;
     resource_location := resource_location;
     pv_logger := logger |}.

Definition PyVisaBackend_init (resource_location : option string)
    (endline : string) (check : bool) (logger : option string)
    : M PyVisaBackendObj :=
  do rm <- (if String.prefix "linux" sys_platform then ResourceManager "@py"
            else if String.prefix "win32" sys_platform then ResourceManager ""
            else ResourceManager "") ;;
  do logger <- default_logger "driverlib.visa.backends.pyvisa_backend" logger ;;
  let self := PyVisaBackend_fields resource_location endline rm logger in
  if check then
    do idn <- PyVisaBackend_query self "*IDN?" None ;;
    Logger_log logger INFO ("Connected to " ++ idn) ;;;
    ret self
  else
    do level <- Logger_level logger ;;
    if (level <=? DEBUG)%Z then
      do idn <- PyVisaBackend_query self "*IDN?" None ;;
      Logger_log logger DEBUG ("Connected to " ++ idn) ;;;
      ret self
    else ret self.

(** ** LoggerBackend *)

Definition LoggerBackend_init (logger : option string) : M string :=
  default_logger "driverlib.visa.backends.logger_backend" logger.

Definition LoggerBackend_write (logger : string) (message : string)
    (timeout : option Z) : M unit :=
  Logger_log logger INFO ("Write: " ++ message ++ ".").

Definition LoggerBackend_query (logger : string) (message : string)
    (timeout : option Z) : M string :=
  Logger_log logger INFO ("Query: " ++ message ++ ".") ;;;
  ret "0".

Definition LoggerBackend_read (logger : string) (timeout : option Z) : M string :=
  Logger_log logger INFO "Read." ;;;
  ret "0".

Definition LoggerBackend_write_and_read (logger : string) (message : string)
    (timeout : option Z) : M string :=
  Logger_log logger INFO ("Query: " ++ message ++ ".") ;;;
  ret "0".

Definition LoggerBackend_close (logger : string) : M unit :=
  Logger_log logger INFO "Close.".

(** ** Test doubles *)

Definition TestDouble_init (t : TestDouble) : M TestDouble :=
  do tr <- history ;;
  emit (EvDouble (td_name t) "__init__" None) ;;;
  outcome (td_init t tr) ;;;
  ret t.

Definition TestDouble_write (t : TestDouble) (message : string)
    (timeout : option Z) : M unit :=
  do tr <- history ;;
  emit (EvDouble (td_name t) "write" (Some message)) ;;;
  outcome (td_write t tr message timeout).

Definition TestDouble_query (t : TestDouble) (message : string)
    (timeout : option Z) : M string :=
  do tr <- history ;;
  emit (EvDouble (td_name t) "query" (Some message)) ;;;
  answer (td_query t tr message timeout).

Definition TestDouble_read (t : TestDouble) (timeout : option Z) : M string :=
  do tr <- history ;;
  emit (EvDouble (td_name t) "read" None) ;;;
  answer (td_read t tr timeout).

Definition TestDouble_write_and_read (t : TestDouble) (message : string)
    (timeout : option Z) : M string :=
  do tr <- history ;;
  emit (EvDouble (td_name t) "write_and_read" (Some message)) ;;;
  answer (td_write_and_read t tr message timeout).

Definition TestDouble_close (t : TestDouble) : M unit :=
  do tr <- history ;;
  emit (EvDouble (td_name t) "close" None) ;;;
  outcome (td_close t tr).

(** ** The backend protocol: calling a class, calling a method *)

Definition Backend_new (B : BackendType) (resource_location : option string)
    (endline : string) (check : bool) (logger : option string) : M Backend :=
  match B with
  | PyVisaBackend =>
      do self <- PyVisaBackend_init resource_location endline check logger ;;
      ret (PyVisaBackendInst self)
  | LoggerBackend =>
      do lg <- LoggerBackend_init logger ;;
      ret (LoggerBackendInst lg)
  | TestDoubleBackend t =>
      do self <- TestDouble_init t ;;
      ret (TestDoubleInst self)
  end.

Definition Backend_write (b : Backend) (message : string) (timeout : option Z)
    : M unit :=
  match b with
  | PyVisaBackendInst self => PyVisaBackend_write self message timeout
  | LoggerBackendInst lg => LoggerBackend_write lg message timeout
  | TestDoubleInst t => TestDouble_write t message timeout
  end.

Definition Backend_query (b : Backend) (message : string) (timeout : option Z)
    : M string :=
  match b with
  | PyVisaBackendInst self => PyVisaBackend_query self message timeout
  | LoggerBackendInst lg => LoggerBackend_query lg message timeout
  | TestDoubleInst t => TestDouble_query t message timeout
  end.

Definition Backend_read (b : Backend) (timeout : option Z) : M string :=
  match b with
  | PyVisaBackendInst self => PyVisaBackend_read self timeout
  | LoggerBackendInst lg => LoggerBackend_read lg timeout
  | TestDoubleInst t => TestDouble_read t timeout
  end.

Definition Backend_write_and_read (b : Backend) (message : string)
    (timeout : option Z) : M string :=
  match b with
  | PyVisaBackendInst self => PyVisaBackend_write_and_read self message timeout
  | LoggerBackendInst lg => LoggerBackend_write_and_read lg message timeout
  | TestDoubleInst t => TestDouble_write_and_read t message timeout
  end.

Definition Backend_close (b : Backend) : M unit :=
  match b with
  | PyVisaBackendInst self => PyVisaBackend_close self
  | LoggerBackendInst lg => LoggerBackend_close lg
  | TestDoubleInst t => TestDouble_close t
  end.

(** ** The backend registry ([_backend_manager.py]) *)

Definition get_backend : M BackendType :=
  fun w =>
    match visa_backend w with
    | None => (inr PyVisaBackend, set_visa_backend (Some PyVisaBackend) w)
    | Some b => (inr b, w)
    end.

Definition set_backend (backend : BackendType) : M unit :=
  fun w => (inr tt, set_visa_backend (Some backend) w).

End Model.

(** ** Attributes of instances *)

(** A property of a class. The getter and the setter receive the instance
    dictionary: the methods of this repository reach their instance only
    through its attributes, and no setter of the repository assigns one. *)
Record property : Type := {
  fget : attrs -> M pyvalue;
  fset : option (attrs -> pyvalue -> M unit)
}.

(** What a class holds under a name: a plain value (a method, a list, a
    number) or a property. *)
Inductive class_attr : Type :=
| ClassValue (v : pyvalue)
| ClassProperty (p : property).

Record instance : Type := {
  inst_class : gmap string class_attr;
  inst_dict : attrs
}.

Definition new_instance (cls : gmap string class_attr) : instance :=
  {| inst_class := cls; inst_dict := ∅ |}.

(** [getattr(self, name)]: a property of the class first, then the
    instance dictionary, then a plain attribute of the class. *)
Definition getattr (self : instance) (name : string) : M pyvalue :=
  match inst_class self !! name with
  | Some (ClassProperty p) => fget p (inst_dict self)
  | found =>
      match inst_dict self !! name with
      | Some v => ret v
      | None =>
          match found with
          | Some (ClassValue v) => ret v
          | _ => raise (AttributeError ("object has no attribute '" ++ name ++ "'"))
          end
      end
  end.

(** [hasattr(self, name)]: reads the attribute; only [AttributeError]
    means that it is absent, any other exception goes on to the caller. *)
Definition hasattr (self : instance) (name : string) : M bool :=
  fun w =>
    match getattr self name w with
    | (inr _, w') => (inr true, w')
    | (inl (AttributeError _), w') => (inr false, w')
    | (inl e, w') => (inl e, w')
    end.

(** [object.__setattr__(self, name, value)]: a property of the class takes
    the value through its setter, and refuses it when it has none; any
    other name is stored in the instance dictionary. *)
Definition object_setattr (self : instance) (name : string) (value : pyvalue)
    : M instance :=
  match inst_class self !! name with
  | Some (ClassProperty p) =>
      match fset p with
      | Some setter => setter (inst_dict self) value ;;; ret self
      | None => raise (AttributeError "can't set attribute")
      end
  | _ =>
      ret {| inst_class := inst_class self;
             inst_dict := <[name := value]> (inst_dict self) |}
  end.

(** [name == v], for a text [name]. *)
Definition names_text (name : string) (v : pyvalue) : bool :=
  match v with
  | PyStr s => String.eqb name s
  | _ => false
  end.

(** [name in container], for a text [name]. *)
Definition py_in (name : string) (container : pyvalue) : M bool :=
  match container with
  | PyList l => ret (existsb (names_text name) l)
  | PyStr s => ret (contains_text name s)
  | _ => raise (TypeError "argument is not iterable")
  end.

(** [LimitedAttributeSetter.__setattr__] ([utils.py]). *)
Definition LimitedAttributeSetter_setattr (self : instance) (name : string)
    (value : pyvalue) : M instance :=
  do present <- hasattr self name ;;
  do allowed <- (if present then ret true
                 else
                   do declared <- hasattr self "_allow_attrs" ;;
                   if declared then
                     do allow <- getattr self "_allow_attrs" ;;
                     py_in name allow
                   else ret false) ;;
  if allowed then object_setattr self name value
  else raise (TypeError ("There is no such attribute '" ++ name ++ "'")).

(** ** Conversions *)

(** [VisaDriver._value_to_bool] ([visa_driver.py]); it does not use
    [self]. *)
Definition _value_to_bool (value : pyvalue) : exn + bool :=
  match value with
  | PyBool b => inr b
  | PyStr s =>
      if String.eqb (lower s) "on" then inr true
      else if String.eqb (lower s) "off" then inr false
      else inl (ValueError "Invalid value to convert to bool. Must be 'ON' or 'OFF'")
  | PyInt z =>
      if (z =? 0)%Z then inr false
      else if (z =? 1)%Z then inr true
      else inl (ValueError "Invalid value to convert to bool. Must be 0 or 1")
  | _ =>
      inl (ValueError
             "Invalid value to convert to bool. Must be int, bool or str ('ON' or 'OFF')")
  end.

Definition is_digit (c : ascii) : bool :=
  let n := N_of_ascii c in ((48 <=? n) && (n <=? 57))%N.

(** The digits of a decimal literal; one underscore may stand between two
    digits. *)
Fixpoint digits_value (s : string) (acc : Z) (after_digit : bool) : option Z :=
  match s with
  | EmptyString => if after_digit then Some acc else None
  | String c s' =>
      if is_digit c
      then digits_value s' (10 * acc + Z.of_N (N_of_ascii c - 48))%Z true
      else if Ascii.eqb c "_" && after_digit then digits_value s' acc false
      else None
  end.

(** [int(text)] in base ten. *)
Definition py_int (text : string) : exn + Z :=
  let s := strip text in
  let parsed :=
    match s with
    | String "-" s' => option_map Z.opp (digits_value s' 0 false)
    | String "+" s' => digits_value s' 0 false
    | _ => digits_value s 0 false
    end in
  match parsed with
  | Some z => inr z
  | None => inl (ValueError ("invalid literal for int() with base 10: '" ++ text ++ "'"))
  end.

Definition newline : string := String (ascii_of_N 10) EmptyString.

Section Drivers.
Context {host : Host}.

(** ** VisaDriver ([visa_driver.py]) *)

(** [self.backend] as the methods of [VisaDriver] read it; [VisaDriver]
    has no property of that name, so the instance dictionary answers. A
    value that is not a backend has none of the methods of the protocol. *)
Definition self_backend (self : attrs) : M Backend :=
  match self !! "backend" with
  | Some (PyBackend b) => ret b
  | Some _ => raise (AttributeError "object has no attribute of the backend protocol")
  | None => raise (AttributeError "object has no attribute 'backend'")
  end.

Definition VisaDriver_write (self : attrs) (message : string)
    (timeout : option Z) : M unit :=
  do backend <- self_backend self ;;
  Backend_write backend message timeout.

Definition VisaDriver_ask (self : attrs) (message : string)
    (timeout : option Z) : M string :=
  do backend <- self_backend self ;;
  Backend_query backend message timeout.

Definition VisaDriver_read (self : attrs) (timeout : option Z) : M string :=
  do backend <- self_backend self ;;
  do r <- Backend_read backend timeout ;;
  ret (strip r).

Definition VisaDriver_write_and_read (self : attrs) (message : string)
    (timeout : option Z) : M string :=
  do backend <- self_backend self ;;
  Backend_write backend message timeout ;;;
  do backend <- self_backend self ;;
  Backend_read backend timeout.

Definition VisaDriver_close (self : attrs) : M unit :=
  do backend <- self_backend self ;;
  Backend_close backend.

Definition VisaDriver_idn (self : attrs) : M string :=
  VisaDriver_ask self "*IDN?" None.

Definition VisaDriver_get_error (self : attrs) : M string :=
  VisaDriver_ask self "SYST:ERR?" None.

Definition VisaDriver_print_error (self : attrs) : M unit :=
  do e <- VisaDriver_get_error self ;;
  emit (EvPrint ("Errors: " ++ e)).

Definition VisaDriver_reset (self : attrs) : M unit :=
  VisaDriver_write self "*RST" None ;;;
  VisaDriver_write self "*WAI" None.

Definition VisaDriver_clear (self : attrs) : M unit :=
  VisaDriver_write self "*CLS" None ;;;
  VisaDriver_write self "*WAI" None.

Definition VisaDriver_methods : list string :=
  ["__init__"; "__setattr__"; "write"; "ask"; "read"; "write_and_read";
   "_value_to_bool"; "close"; "get_error"; "print_error"; "reset"; "clear"].

(** The attributes of the class [VisaDriver]: the allow-list, the read-only
    property [idn] and the methods. [backend] and [_possible_names] are
    annotations only. The attributes every object inherits from [object]
    are left out. *)
Definition VisaDriver_class : gmap string class_attr :=
  <["_allow_attrs" := ClassValue (PyList [PyStr "logger"; PyStr "backend"])]>
  (<["idn" := ClassProperty
       {| fget := fun self => do r <- VisaDriver_idn self ;; ret (PyStr r);
          fset := None |}]>
   (list_to_map
      (map (fun m => (m, ClassValue (PyFunction ("VisaDriver." ++ m))))
         VisaDriver_methods))).

(** [VisaDriver.__init__]. *)
Definition VisaDriver_init (self : instance) (resource_location : option string)
    (endline : string) (check : bool) (logger : option string) : M instance :=
  do logger <- default_logger "driverlib.visa_driver" logger ;;
  do self <- LimitedAttributeSetter_setattr self "logger" (PyLogger logger) ;;
  do backend_class <- get_backend ;;
  do backend <- Backend_new backend_class resource_location endline check
                  (Some logger) ;;
  LimitedAttributeSetter_setattr self "backend" (PyBackend backend).

(** [VisaDriver(resource_location, endline, check, logger)]. *)
Definition VisaDriver_new (resource_location : option string) (endline : string)
    (check : bool) (logger : option string) : M instance :=
  VisaDriver_init (new_instance VisaDriver_class) resource_location endline
    check logger.

(** ** KeysightNA ([keysight/keysight_na.py]): the property [output] *)

Definition KeysightNA_get_output (self : attrs) : M pyvalue :=
  do r <- VisaDriver_ask self "OUTP?" None ;;
  do n <- answer (py_int r) ;;
  ret (PyBool (negb (n =? 0)%Z)).

Definition KeysightNA_set_output (self : attrs) (value : pyvalue) : M unit :=
  do on <- answer (_value_to_bool value) ;;
  if on then VisaDriver_write self ":OUTP ON" None
  else VisaDriver_write self ":OUTP OFF" None.

(** The class [KeysightNA], a subclass of [VisaDriver]; of its own
    attributes only [output = property(get_output, set_output)] and the two
    functions are listed. *)
Definition KeysightNA_class : gmap string class_attr :=
  <["output" := ClassProperty
      {| fget := KeysightNA_get_output; fset := Some KeysightNA_set_output |}]>
  (<["get_output" := ClassValue (PyFunction "KeysightNA.get_output")]>
   (<["set_output" := ClassValue (PyFunction "KeysightNA.set_output")]>
    VisaDriver_class)).

(** [KeysightNA(resource_location)]. *)
Definition KeysightNA_new (resource_location : string) : M instance :=
  VisaDriver_init (new_instance KeysightNA_class) (Some resource_location)
    newline false None.

(** ** Runs *)

(** The calls a user makes on the registry. *)
Inductive registry_call : Type :=
| CallGetBackend
| CallSetBackend (backend : BackendType).

(** Runs the calls in order and collects what every [get_backend]
    returned. *)
Fixpoint run_registry (calls : list registry_call) (w : world)
    : list BackendType * world :=
  match calls with
  | [] => ([], w)
  | CallGetBackend :: rest =>
      match get_backend w with
      | (inr b, w') => let (bs, w'') := run_registry rest w' in (b :: bs, w'')
      | (inl _, w') => run_registry rest w'
      end
  | CallSetBackend b :: rest => run_registry rest (snd (set_backend b w))
  end.

(** The operations of a driver. *)
Inductive driver_call : Type :=
| CallWrite (message : string) (timeout : option Z)
| CallAsk (message : string) (timeout : option Z)
| CallRead (timeout : option Z)
| CallWriteAndRead (message : string) (timeout : option Z)
| CallClose
| CallIdn
| CallGetError
| CallPrintError
| CallReset
| CallClear.

Definition returns_none (m : M unit) : M pyvalue := m ;;; ret PyNone.

Definition returns_text (m : M string) : M pyvalue := do r <- m ;; ret (PyStr r).

Definition run_call (c : driver_call) (self : attrs) : M pyvalue :=
  match c with
  | CallWrite message timeout => returns_none (VisaDriver_write self message timeout)
  | CallAsk message timeout => returns_text (VisaDriver_ask self message timeout)
  | CallRead timeout => returns_text (VisaDriver_read self timeout)
  | CallWriteAndRead message timeout =>
      returns_text (VisaDriver_write_and_read self message timeout)
  | CallClose => returns_none (VisaDriver_close self)
  | CallIdn => returns_text (VisaDriver_idn self)
  | CallGetError => returns_text (VisaDriver_get_error self)
  | CallPrintError => returns_none (VisaDriver_print_error self)
  | CallReset => returns_none (VisaDriver_reset self)
  | CallClear => returns_none (VisaDriver_clear self)
  end.

(** Runs the calls in order; the caller goes on after an exception. *)
Fixpoint run_calls (calls : list driver_call) (self : attrs) (w : world)
    : list (exn + pyvalue) * world :=
  match calls with
  | [] => ([], w)
  | c :: rest =>
      let (r, w') := run_call c self w in
      let (rs, w'') := run_calls rest self w' in
      (r :: rs, w'')
  end.


(** The four operations of the transport backend. *)
Inductive transport_call : Type :=
| TransportWrite (message : string) (timeout : option Z)
| TransportQuery (message : string) (timeout : option Z)
| TransportRead (timeout : option Z)
| TransportWriteAndRead (message : string) (timeout : option Z).

Definition transport_timeout (c : transport_call) : option Z :=
  match c with
  | TransportWrite _ t | TransportQuery _ t | TransportRead t
  | TransportWriteAndRead _ t => t
  end.

Definition run_transport (c : transport_call) (self : PyVisaBackendObj)
    : M pyvalue :=
  match c with
  | TransportWrite message timeout =>
      returns_none (PyVisaBackend_write self message timeout)
  | TransportQuery message timeout =>
      returns_text (PyVisaBackend_query self message timeout)
  | TransportRead timeout => returns_text (PyVisaBackend_read self timeout)
  | TransportWriteAndRead message timeout =>
      returns_text (PyVisaBackend_write_and_read self message timeout)
  end.

End Drivers.

(** ** Hosts, doubles and starting states used in the examples *)

(** A bench where every call returns; replies end in a line feed. *)
Definition bench_host : Host :=
  {| sys_platform := "linux";
     visa_open_resource := fun _ _ _ _ => None;
     visa_set_timeout := fun _ _ _ => None;
     visa_write := fun _ _ _ => None;
     visa_read := fun _ _ => inr (" 1" ++ newline);
     visa_query := fun _ _ _ => inr ("ACME,GS200,0,1.0" ++ newline);
     visa_close := fun _ _ => None |}.

(** A bench whose instrument accepts the connection and then never
    answers: every write, read and query times out. *)
Definition silent_host : Host :=
  {| sys_platform := "linux";
     visa_open_resource := fun _ _ _ _ => None;
     visa_set_timeout := fun _ _ _ => None;
     visa_write := fun _ _ _ => Some (VisaIOError "VI_ERROR_TMO");
     visa_read := fun _ _ => inl (VisaIOError "VI_ERROR_TMO");
     visa_query := fun _ _ _ => inl (VisaIOError "VI_ERROR_TMO");
     visa_close := fun _ _ => None |}.

(** A bench whose resources refuse a timeout beyond the range of the
    visa attribute. *)
Definition strict_host : Host :=
  {| sys_platform := "linux";
     visa_open_resource := fun _ _ _ _ => None;
     visa_set_timeout := fun _ _ t =>
       if (4294967294 <? t)%Z then Some (ValueError "timeout value is invalid")
       else None;
     visa_write := fun _ _ _ => None;
     visa_read := fun _ _ => inr (" 1" ++ newline);
     visa_query := fun _ _ _ => inr ("ACME,GS200,0,1.0" ++ newline);
     visa_close := fun _ _ => None |}.

(** A backend class of a test suite whose replies keep their padding. *)
Definition padded_double : TestDouble :=
  {| td_name := "PaddedBackend";
     td_init := fun _ => None;
     td_write := fun _ _ _ => None;
     td_query := fun _ _ _ => inr " 1 ";
     td_read := fun _ _ => inr " 1 ";
     td_write_and_read := fun _ _ _ => inr " 1 ";
     td_close := fun _ => None |}.

(** The process before anything ran: no backend selected, no logger
    configured, nothing called. *)
Definition start_world : world := mkWorld None ∅ [].

Definition gs200 : PyVisaBackendObj :=
  PyVisaBackend_fields (Some "GPIB0::1::INSTR") newline "@py" "bench".

(** A [VisaDriver] as [__init__] leaves it with the given backend. *)
Definition driver_with (b : Backend) : attrs :=
  <["backend" := PyBackend b]> (<["logger" := PyLogger "driverlib.visa_driver"]> ∅).

(** ** What the specification expects, in its own words *)

(** The spellings of "on" and of "off" that differ in case only. *)
Definition on_spellings : list string := ["on"; "On"; "oN"; "ON"].

Definition off_spellings : list string :=
  ["off"; "Off"; "oFf"; "ofF"; "OFf"; "OfF"; "oFF"; "OFF"].

(** The boolean a boolean-like input stands for: [True], "on" in any case
    and 1 stand for [True]; [False], "off" in any case and 0 for [False];
    nothing else stands for a boolean. *)
Definition boolean_like (value : pyvalue) : option bool :=
  match value with
  | PyBool b => Some b
  | PyStr s =>
      if existsb (String.eqb s) on_spellings then Some true
      else if existsb (String.eqb s) off_spellings then Some false
      else None
  | PyInt 0 => Some false
  | PyInt 1 => Some true
  | _ => None
  end.

(** The backend type in force: the one selected, the transport backend
    when none was. *)
Definition selected (w : world) : BackendType :=
  match visa_backend w with
  | Some b => b
  | None => PyVisaBackend
  end.

(** What the [get_backend] calls of a run return when [current] is in
    force at its start: each returns the argument of the latest
    [set_backend] before it. *)
Fixpoint expected_gets (current : BackendType) (calls : list registry_call)
    : list BackendType :=
  match calls with
  | [] => []
  | CallGetBackend :: rest => current :: expected_gets current rest
  | CallSetBackend b :: rest => expected_gets b rest
  end.

(** A computation that only adds events to the trace, none of them closing
    handle [h]. *)
Definition keeps_open {A} (h : handle) (m : M A) : Prop :=
  forall w, exists evs,
    trace (snd (m w)) = (trace w ++ evs)%list /\ closes h evs = 0.

(** A computation that neither reads nor writes the registry: run with
    another selection, it does the same and leaves that selection. *)
Definition oblivious {A} (m : M A) : Prop :=
  forall r w,
    m (set_visa_backend r w) = (fst (m w), set_visa_backend r (snd (m w))).

(** *** Attributes *)

Definition is_property (self : instance) (name : string) : bool :=
  match inst_class self !! name with
  | Some (ClassProperty _) => true
  | _ => false
  end.

(** What a name that is not a property resolves to: the entry of the
    instance dictionary, else the plain attribute of the class. *)
Definition plain_lookup (self : instance) (name : string) : option pyvalue :=
  match inst_dict self !! name with
  | Some v => Some v
  | None =>
      match inst_class self !! name with
      | Some (ClassValue v) => Some v
      | _ => None
      end
  end.

(** The attribute already exists on the instance. *)
Definition present (self : instance) (name : string) : bool :=
  match plain_lookup self name with
  | Some _ => true
  | None => false
  end.

(** The name is in the declared allow-list of the instance. *)
Definition allow_listed (self : instance) (name : string) : bool :=
  match plain_lookup self "_allow_attrs" with
  | Some (PyList l) => existsb (names_text name) l
  | _ => false
  end.

(** The allow-list, when one is declared, is a list held as a plain
    attribute. *)
Definition allow_list_plain (self : instance) : bool :=
  negb (is_property self "_allow_attrs")
  && match plain_lookup self "_allow_attrs" with
     | None | Some (PyList _) => true
     | _ => false
     end.

(** The instance after [name] was stored in its dictionary. *)
Definition stored (self : instance) (name : string) (value : pyvalue) : instance :=
  {| inst_class := inst_class self;
     inst_dict := <[name := value]> (inst_dict self) |}.


(** The message of the guard. *)
Definition no_such_attribute (name : string) : exn :=
  TypeError ("There is no such attribute '" ++ name ++ "'").

Section Claims.
Context {host : Host}.

(** C5 as the specification states it: an assignment to an attribute
    that exists or is allow-listed succeeds and the value is read back;
    any other assignment raises the [TypeError] that names the
    attribute. *)
Definition guard_claim (self : instance) (name : string) (value : pyvalue)
    (w : world) : Prop :=
  (fst (hasattr self name w) = inr true \/ allow_listed self name = true ->
   exists self' w',
     LimitedAttributeSetter_setattr self name value w = (inr self', w')
     /\ fst (getattr self' name w') = inr value)
  /\ (~ (fst (hasattr self name w) = inr true \/ allow_listed self name = true) ->
      exists w',
        LimitedAttributeSetter_setattr self name value w
        = (inl (no_such_attribute name), w')).


(** C7 as stated: [ask] returns the trimmed form of what the query of
    the backend returned. *)
Definition ask_trims (self : attrs) (message : string) (timeout : option Z)
    (w : world) : Prop :=
  forall b r w',
    self !! "backend" = Some (PyBackend b) ->
    Backend_query b message timeout w = (inr r, w') ->
    VisaDriver_ask self message timeout w = (inr (strip r), w').

(** The methods of the backend a driver operation comes down to. *)
Definition on_backend (c : driver_call) (b : Backend) : M pyvalue :=
  match c with
  | CallWrite message timeout => returns_none (Backend_write b message timeout)
  | CallAsk message timeout => returns_text (Backend_query b message timeout)
  | CallRead timeout =>
      returns_text (do r <- Backend_read b timeout ;; ret (strip r))
  | CallWriteAndRead message timeout =>
      returns_text (Backend_write b message timeout ;;; Backend_read b timeout)
  | CallClose => returns_none (Backend_close b)
  | CallIdn => returns_text (Backend_query b "*IDN?" None)
  | CallGetError => returns_text (Backend_query b "SYST:ERR?" None)
  | CallPrintError =>
      returns_none (do e <- Backend_query b "SYST:ERR?" None ;;
                    emit (EvPrint ("Errors: " ++ e)))
  | CallReset =>
      returns_none (Backend_write b "*RST" None ;;; Backend_write b "*WAI" None)
  | CallClear =>
      returns_none (Backend_write b "*CLS" None ;;; Backend_write b "*WAI" None)
  end.

End Claims.

(** What a driver on the logging backend returns: the placeholder for the
    operations that return text, nothing for the others. *)
Definition logged_result (c : driver_call) : pyvalue :=
  match c with
  | CallAsk _ _ | CallRead _ | CallWriteAndRead _ _ | CallIdn | CallGetError =>
      PyStr "0"
  | _ => PyNone
  end.

(** What a driver on the logging backend adds to the trace: the log
    entries of its backend, and the line [print_error] prints. *)
Definition logged_events (lg : string) (c : driver_call) : list event :=
  let written message := EvLog lg INFO ("Write: " ++ message ++ ".") in
  let queried message := EvLog lg INFO ("Query: " ++ message ++ ".") in
  match c with
  | CallWrite message _ => [written message]
  | CallAsk message _ => [queried message]
  | CallRead _ => [EvLog lg INFO "Read."]
  | CallWriteAndRead message _ => [written message; EvLog lg INFO "Read."]
  | CallClose => [EvLog lg INFO "Close."]
  | CallIdn => [queried "*IDN?"]
  | CallGetError => [queried "SYST:ERR?"]
  | CallPrintError => [queried "SYST:ERR?"; EvPrint "Errors: 0"]
  | CallReset => [written "*RST"; written "*WAI"]
  | CallClear => [written "*CLS"; written "*WAI"]
  end.

(** The process after [evs] were added to the trace. *)
Definition after (w : world) (evs : list event) : world :=
  mkWorld (visa_backend w) (logger_levels w) (trace w ++ evs).

(** A [VisaDriver] and a [KeysightNA] on the logging backend. *)
Definition logging_driver {host : Host} : instance :=
  {| inst_class := VisaDriver_class;
     inst_dict := driver_with (LoggerBackendInst "driverlib.visa_driver") |}.


Definition bench_driver : instance := logging_driver (host := bench_host).


(** ** Further parts of the drivers *)

(** *** Numbers and formatting *)

(** The number a value stands for in a comparison with an integer: a
    boolean counts as 0 or 1, a float [m * 2^e] has exactly that value, and
    Python compares it with an integer exactly. Floats that are infinite
    or not a number are not values of the model. *)
Definition number (v : pyvalue) : option Q :=
  match v with
  | PyBool b => Some (inject_Z (if b then 1 else 0))
  | PyInt z => Some (inject_Z z)
  | PyFloat m e => Some (inject_Z m * Qpower (inject_Z 2) e)%Q
  | _ => None
  end.


Definition py_gt (v : pyvalue) (c : Z) : exn + bool :=
  match number v with
  | Some q => inr (negb (Qle_bool q (inject_Z c)))
  | None => inl (TypeError "'>' not supported between instances")
  end.

(** What Python itself provides and the model takes as given:
    [format(value, spec)], which is what an f-string field and [str] come
    down to; it may raise. *)
Class PyRuntime : Type := {
  py_format : string -> pyvalue -> exn + string
}.

(** *** Counting connections *)

(** How many times [open_resource] returned handle [h] in a trace. *)
Fixpoint opens (h : handle) (tr : list event) : nat :=
  match tr with
  | [] => 0
  | EvOpenResource _ _ _ (Some h') :: tr' =>
      (if Nat.eqb h h' then 1 else 0) + opens h tr'
  | _ :: tr' => opens h tr'
  end.

(** Events among which every handle that was opened was closed as often. *)
Definition settled (evs : list event) : Prop :=
  forall h, opens h evs = closes h evs.

(** Events that neither open nor close a handle. *)
Definition inert (evs : list event) : Prop :=
  forall h, opens h evs = 0 /\ closes h evs = 0.

(** A computation that changes the process only by adding events with
    property [P] to the trace. *)
Definition adds {A} (P : list event -> Prop) (m : M A) : Prop :=
  forall w, exists evs, snd (m w) = after w evs /\ P evs.

(** The timeout of a driver call, for the calls that take one. *)
Definition call_timeout (c : driver_call) : option Z :=
  match c with
  | CallWrite _ t | CallAsk _ t | CallRead t | CallWriteAndRead _ t => t
  | _ => None
  end.

(** A bench with no instrument at the address: [open_resource] raises. *)
Definition unplugged_host : Host :=
  {| sys_platform := "win32";
     visa_open_resource := fun _ _ _ _ => Some (VisaIOError "VI_ERROR_RSRC_NFOUND");
     visa_set_timeout := fun _ _ _ => None;
     visa_write := fun _ _ _ => None;
     visa_read := fun _ _ => inr "";
     visa_query := fun _ _ _ => inr "";
     visa_close := fun _ _ => None |}.

(** A bench whose instrument answers every query with a word. *)
Definition wordy_host : Host :=
  {| sys_platform := "linux";
     visa_open_resource := fun _ _ _ _ => None;
     visa_set_timeout := fun _ _ _ => None;
     visa_write := fun _ _ _ => None;
     visa_read := fun _ _ => inr ("ON" ++ newline);
     visa_query := fun _ _ _ => inr ("ON" ++ newline);
     visa_close := fun _ _ => None |}.

(** *** The logger of a driver *)

(** The logger [VisaDriver.__init__] uses and hands to its backend. *)
Definition driver_logger (logger : option string) : string :=
  match logger with
  | Some l => l
  | None => "driverlib.visa_driver"
  end.

(** The levels of the loggers after [VisaDriver.__init__] chose its
    logger. *)
Definition driver_levels (logger : option string) (w : world) : gmap string Z :=
  match logger with
  | Some _ => logger_levels w
  | None => <["driverlib.visa_driver" := INFO]> (logger_levels w)
  end.

(** *** Subclasses of [VisaDriver] *)

(** What [__init__] of [VisaDriver] relies on in the class of the
    instance: the allow-list of [VisaDriver], and no class attribute named
    [logger] or [backend]. *)
Definition driver_class (cls : gmap string class_attr) : Prop :=
  cls !! "_allow_attrs"
  = Some (ClassValue (PyList [PyStr "logger"; PyStr "backend"]))
  /\ cls !! "logger" = None
  /\ cls !! "backend" = None.

(** A class statement: the plain attributes, the methods and the
    properties of the body, over the attributes of the parent. The bodies
    of the properties are given by [body]. *)
Definition subclass (parent : gmap string class_attr) (qualname : string)
    (values : list (string * pyvalue)) (methods properties : list string)
    (body : string -> property) : gmap string class_attr :=
  list_to_map
    (map (fun p => (p, ClassProperty (body p))) properties
     ++ map (fun m => (m, ClassValue (PyFunction (qualname ++ "." ++ m)))) methods
     ++ map (fun nv => (fst nv, ClassValue (snd nv))) values)%list
  ∪ parent.

Section MoreDrivers.
Context {host : Host} {runtime : PyRuntime}.

(** *** KeysightNA: further methods ([keysight/keysight_na.py]) *)


Definition KeysightNA_set_frequency_sweep (self : attrs)
    (f_min f_max n_freq : pyvalue) : M unit :=
  do many <- answer (py_gt n_freq 10001) ;;
  if many then raise (ValueError "Maximum number of points is 10 001")
  else
    do start <- answer (py_format "" f_min) ;;
    VisaDriver_write self (":SENS1:FREQ:STAR " ++ start) None ;;;
    do stop <- answer (py_format "" f_max) ;;
    VisaDriver_write self (":SENS1:FREQ:STOP " ++ stop) None ;;;
    do points <- answer (py_format "" n_freq) ;;
    VisaDriver_write self (":SENS1:SWE:POIN " ++ points) None.

(** [is_completed]: [except VisaIOError: return False]. *)
Definition KeysightNA_is_completed (self : attrs) : M pyvalue :=
  fun w =>
    match VisaDriver_ask self "*OPC?" None w with
    | (inr r, w') => (inr (PyStr r), w')
    | (inl (VisaIOError _), w') => (inr (PyBool false), w')
    | (inl e, w') => (inl e, w')
    end.

Definition KeysightNA_get_ext_trig (self : attrs) : M pyvalue :=
  do r <- VisaDriver_ask self ":TRIGger:OUTPut?" None ;;
  do n <- answer (py_int r) ;;
  ret (PyBool (negb (n =? 0)%Z)).

Definition KeysightNA_set_ext_trig (self : attrs) (value : pyvalue) : M unit :=
  do on <- answer (_value_to_bool value) ;;
  if on then VisaDriver_write self ":TRIGger:OUTPut ON" None
  else VisaDriver_write self ":TRIGger:OUTPut OFF" None.

Definition KeysightNA_set_trigger_continuous (self : attrs) (val : pyvalue)
    : M unit :=
  do on <- answer (_value_to_bool val) ;;
  if on then VisaDriver_write self ":INIT:CONT ON" None
  else VisaDriver_write self ":INIT:CONT OFF" None.

(** *** RhodeSchwarzSource ([rhode_schwarz/rs_source.py]) *)

Definition RhodeSchwarzSource_get_output (self : attrs) : M pyvalue :=
  do r <- VisaDriver_ask self "OUTP?" None ;;
  do n <- answer (py_int r) ;;
  ret (PyBool (negb (n =? 0)%Z)).

Definition RhodeSchwarzSource_set_output (self : attrs) (value : pyvalue)
    : M unit :=
  do on <- answer (_value_to_bool value) ;;
  if on then VisaDriver_write self ":OUTP ON" None
  else VisaDriver_write self ":OUTP OFF" None.

Definition RhodeSchwarzSource_get_modulation (self : attrs) : M pyvalue :=
  do r <- VisaDriver_ask self "MOD:STAT?" None ;;
  do n <- answer (py_int r) ;;
  ret (PyBool (negb (n =? 0)%Z)).

Definition RhodeSchwarzSource_set_modulation (self : attrs) (value : pyvalue)
    : M unit :=
  do on <- answer (_value_to_bool value) ;;
  if on then VisaDriver_write self "MOD:STAT ON" None
  else VisaDriver_write self "MOD:STAT OFF" None.

(** The setters of an on/off state, each with the command it sends for on
    and the one it sends for off. *)
Definition onoff_setters : list ((attrs -> pyvalue -> M unit) * string * string) :=
  [(KeysightNA_set_output, ":OUTP ON", ":OUTP OFF");
   (KeysightNA_set_ext_trig, ":TRIGger:OUTPut ON", ":TRIGger:OUTPut OFF");
   (KeysightNA_set_trigger_continuous, ":INIT:CONT ON", ":INIT:CONT OFF");
   (RhodeSchwarzSource_set_output, ":OUTP ON", ":OUTP OFF");
   (RhodeSchwarzSource_set_modulation, "MOD:STAT ON", "MOD:STAT OFF")].

(** *** YokogawaGS200 ([yokogawa/yokogawa_gs200.py]) *)

Definition YokogawaGS200_methods : list string :=
  ["__init__"; "get_output"; "set_output"; "get_range"; "set_range";
   "set_level"; "get_level"; "get_voltage"; "set_voltage"; "get_current";
   "set_current"; "set_voltage_safely"; "set_output_safely";
   "set_output_voltage_safely"; "bring_to_voltage"].

Definition YokogawaGS200_properties : list string :=
  ["output"; "range"; "level"; "voltage"; "current"].

(** The attributes of the class; [mode] is an annotation only. *)
Definition YokogawaGS200_class (body : string -> property)
    : gmap string class_attr :=
  subclass VisaDriver_class "YokogawaGS200" [("_precision", PyInt 8)]
    YokogawaGS200_methods YokogawaGS200_properties body.

Definition YokogawaGS200_init (self : instance) (resource_location : string)
    (mode : pyvalue) : M instance :=
  do self <- VisaDriver_init self (Some resource_location) "" false None ;;
  LimitedAttributeSetter_setattr self "mode" mode.

(** [YokogawaGS200(resource_location, mode)]. *)
Definition YokogawaGS200_new (body : string -> property)
    (resource_location : string) (mode : pyvalue) : M instance :=
  YokogawaGS200_init (new_instance (YokogawaGS200_class body))
    resource_location mode.

(** *** AFG ([tektronix/afg.py]) *)

Definition AFG_methods : list string :=
  ["__init__"; "recall"; "save"; "calibrate"; "phaseinit"; "trigger";
   "get_continuous"; "set_continuous"; "get_sweep_mode"; "set_sweep_mode";
   "get_sweep_center"; "set_sweep_center"; "get_sweep_span"; "set_sweep_span";
   "get_sweep_spacing"; "set_sweep_spacing"; "get_sweep_rtime";
   "set_sweep_rtime"; "get_sweep_time"; "set_sweep_time"].

Definition AFG_properties : list string :=
  ["output_enabled"; "am"; "fm"; "pm"; "pwm"; "waveform"; "duty_cycle_high";
   "impedance"; "polarity"; "triggerout"; "roscillator"; "amplitudelock";
   "frequencylock"; "amplitude"; "frequency"; "phase"; "offset"; "high";
   "low"; "triggersource"; "triggerslope"; "triggertimer"; "burstenabled";
   "burstcycles"; "burstdelay"; "burstmode"; "output_mode"; "continuous";
   "sweep_mode"; "sweep_center"; "sweep_span"; "sweep_spacing"; "sweep_rtime";
   "sweep_time"].

Definition AFG_class (body : string -> property) : gmap string class_attr :=
  subclass VisaDriver_class "AFG"
    [("_supported_models", PyList [PyStr "AFG3102"; PyStr "AFG3022B"])]
    AFG_methods AFG_properties body.

(** [del model_name] leaves nothing to model. *)
Definition AFG_init (self : instance) (resource_location : string)
    (model_name : pyvalue) : M instance :=
  do self <- VisaDriver_init self (Some resource_location) "" false None ;;
  LimitedAttributeSetter_setattr self "channel_idx" (PyInt 1).

(** [AFG(resource_location, model_name)]. *)
Definition AFG_new (body : string -> property) (resource_location : string)
    (model_name : pyvalue) : M instance :=
  AFG_init (new_instance (AFG_class body)) resource_location model_name.

End MoreDrivers.

(** A runtime whose formatting renders a text as itself and a whole
    number in decimal and refuses everything else, and property bodies
    that do nothing, for the examples. *)
Definition text_runtime : PyRuntime :=
  {| py_format := fun _ v =>
       match v with
       | PyStr s => inr s
       | PyInt z => inr (DecimalString.NilZero.string_of_int (Z.to_int z))
       | _ => inl (TypeError "unsupported format")
       end |}.

Definition idle_property (name : string) : property :=
  {| fget := fun _ => ret PyNone; fset := None |}.

Local Open Scope list_scope.

Section Prepared.
Context {host : Host}.

(** [PyVisaBackend.__init__] up to its last assignment: the resource
    manager is created and the logger chosen; the identification query, if
    any, comes after. *)
Definition PyVisaBackend_prepare (resource_location : option string)
    (endline : string) (logger : option string) : M PyVisaBackendObj :=
  do rm <- (if String.prefix "linux" sys_platform then ResourceManager "@py"
            else if String.prefix "win32" sys_platform then ResourceManager ""
            else ResourceManager "") ;;
  do logger <- default_logger "driverlib.visa.backends.pyvisa_backend" logger ;;
  ret (PyVisaBackend_fields resource_location endline rm logger).

(** The identification query followed by the log entry at [level]. *)
Definition identify (self : PyVisaBackendObj) (level : Z) : M PyVisaBackendObj :=
  do idn <- PyVisaBackend_query self "*IDN?" None ;;
  Logger_log (pv_logger self) level ("Connected to " ++ idn) ;;;
  ret self.

End Prepared.

(** The events a run added to the trace are [evs]. *)
Definition added (w w' : world) (evs : list event) : Prop :=
  trace w' = (trace w ++ evs)%list.

Local Open Scope list_scope.

(** ** Text: lemmas *)

Lemma lstrip_fixed c s : is_space c = false -> lstrip (String c s) = String c s.
Proof. intros H. simpl. now rewrite H. Qed.

Lemma rstrip_head c s :
  is_space c = false -> rstrip (String c s) = String c (rstrip s).
Proof. intros H. simpl. now rewrite H. Qed.

Lemma rstrip_idempotent s : rstrip (rstrip s) = rstrip s.
Proof.
  induction s as [|c s IH]; [reflexivity|].
  simpl. destruct (is_space c) eqn:Hc; simpl.
  - destruct (rstrip s) as [|d r] eqn:Hr; simpl; [reflexivity|].
    rewrite Hc. simpl in IH. simpl.
    destruct (is_space d && is_empty (rstrip r)) eqn:Hd.
    + discriminate IH.
    + now rewrite IH.
  - rewrite Hc. simpl. now rewrite IH.
Qed.

Lemma lstrip_head s :
  lstrip s = EmptyString \/ exists c r, lstrip s = String c r /\ is_space c = false.
Proof.
  induction s as [|c s IH]; [now left|].
  simpl. destruct (is_space c) eqn:Hc; [exact IH|].
  right. now exists c, s.
Qed.

(** Trimming twice is trimming once. *)
Lemma strip_idempotent s : strip (strip s) = strip s.
Proof.
  unfold strip.
  destruct (lstrip_head s) as [H | (c & r & H & Hc)]; rewrite H.
  - reflexivity.
  - rewrite (rstrip_head c r Hc), (lstrip_fixed c _ Hc), (rstrip_head c _ Hc).
    now rewrite rstrip_idempotent.
Qed.

Lemma lower_char_o c :
  Ascii.eqb (lower_char c) "o" = Ascii.eqb c "o" || Ascii.eqb c "O".
Proof. destruct c as [[] [] [] [] [] [] [] []]; reflexivity. Qed.

Lemma lower_char_n c :
  Ascii.eqb (lower_char c) "n" = Ascii.eqb c "n" || Ascii.eqb c "N".
Proof. destruct c as [[] [] [] [] [] [] [] []]; reflexivity. Qed.

Lemma lower_char_f c :
  Ascii.eqb (lower_char c) "f" = Ascii.eqb c "f" || Ascii.eqb c "F".
Proof. destruct c as [[] [] [] [] [] [] [] []]; reflexivity. Qed.

Ltac bool_cases :=
  repeat match goal with
         | |- context [Ascii.eqb ?a ?b] => destruct (Ascii.eqb a b)
         end;
  reflexivity.

(** A text lowers to "on" exactly when it is one of the four spellings. *)
Lemma lower_on s : String.eqb (lower s) "on" = existsb (String.eqb s) on_spellings.
Proof.
  destruct s as [|a [|b [|c s]]]; try reflexivity;
    cbn [lower String.eqb existsb on_spellings];
    rewrite ?lower_char_o, ?lower_char_n; bool_cases.
Qed.

Lemma lower_off s : String.eqb (lower s) "off" = existsb (String.eqb s) off_spellings.
Proof.
  destruct s as [|a [|b [|c [|d s]]]]; try reflexivity;
    cbn [lower String.eqb existsb off_spellings];
    rewrite ?lower_char_o, ?lower_char_f; bool_cases.
Qed.

(** ** The value-to-boolean coercion *)

(** C2. [_value_to_bool] returns the boolean a boolean-like input stands
    for: [True], [False], 0, 1 and "on" or "off" in any case, among them
    the eight inputs the specification lists; on every other input (any
    other text, any other integer, a value of any other type) it raises
    [ValueError]. *)
Theorem value_to_bool_total (value : pyvalue) :
  match boolean_like value with
  | Some b => _value_to_bool value = inr b
  | None => exists msg, _value_to_bool value = inl (ValueError msg)
  end
  /\ map _value_to_bool
       [PyBool true; PyBool false; PyStr "on"; PyStr "ON"; PyStr "off";
        PyStr "OFF"; PyInt 0; PyInt 1]
     = map inr [true; false; true; true; false; false; false; true]
  /\ map boolean_like [PyStr "maybe"; PyInt 2; PyFloat 7 (-1); PyNone]
     = [None; None; None; None].
Proof.
  split; [|split; reflexivity].
  destruct value as [|b|z|m e|s|l|n|b|q];
    cbn [boolean_like _value_to_bool]; eauto.
  - destruct z as [|p|p]; simpl; eauto.
    destruct p; simpl; eauto.
  - rewrite lower_on, lower_off.
    destruct (existsb (String.eqb s) on_spellings); [reflexivity|].
    destruct (existsb (String.eqb s) off_spellings); [reflexivity|].
    eauto.
Qed.

(** ** The backend registry *)

Lemma run_registry_expected calls :
  forall w, fst (run_registry calls w) = expected_gets (selected w) calls.
Proof.
  induction calls as [|c rest IH]; intros w; [reflexivity|].
  destruct c as [|b]; cbn [run_registry expected_gets].
  - unfold get_backend. destruct (visa_backend w) as [b|] eqn:Hw.
    + assert (Hsel : selected w = b) by (unfold selected; now rewrite Hw).
      specialize (IH w). rewrite Hsel in *.
      destruct (run_registry rest w) as [bs w'']. cbn [fst] in *. congruence.
    + assert (Hsel : selected w = PyVisaBackend)
        by (unfold selected; now rewrite Hw).
      specialize (IH (set_visa_backend (Some PyVisaBackend) w)).
      rewrite Hsel. change (selected (set_visa_backend (Some PyVisaBackend) w))
        with PyVisaBackend in IH.
      destruct (run_registry rest _) as [bs w'']. cbn [fst] in *. congruence.
  - apply IH.
Qed.

(** ** Scoped connections *)

Lemma closes_app h a b : closes h (a ++ b) = closes h a + closes h b.
Proof.
  induction a as [|e a IH]; [reflexivity|].
  destruct e; simpl; rewrite ?IH; try reflexivity.
  now rewrite Nat.add_assoc.
Qed.

Lemma keeps_open_ret {A} h (a : A) : keeps_open h (ret a).
Proof. intros w. exists []. now rewrite app_nil_r. Qed.

Lemma keeps_open_raise {A} h e : keeps_open h (@raise A e).
Proof. intros w. exists []. now rewrite app_nil_r. Qed.

Lemma keeps_open_history h : keeps_open h history.
Proof. intros w. exists []. now rewrite app_nil_r. Qed.

Lemma keeps_open_outcome h o : keeps_open h (outcome o).
Proof. destruct o; [apply keeps_open_raise | apply keeps_open_ret]. Qed.

Lemma keeps_open_answer {A} h (o : exn + A) : keeps_open h (answer o).
Proof. destruct o; [apply keeps_open_raise | apply keeps_open_ret]. Qed.

Lemma keeps_open_emit h e : closes h [e] = 0 -> keeps_open h (emit e).
Proof. intros He w. now exists [e]. Qed.

Lemma keeps_open_bind {A B} h (m : M A) (f : A -> M B) :
  keeps_open h m -> (forall a, keeps_open h (f a)) -> keeps_open h (bind m f).
Proof.
  intros Hm Hf w. unfold bind.
  destruct (Hm w) as (e1 & H1 & C1).
  destruct (m w) as [[e|a] w1]; cbn [snd] in *.
  - now exists e1.
  - destruct (Hf a w1) as (e2 & H2 & C2).
    exists (e1 ++ e2). rewrite H2, H1, closes_app, C1, C2.
    now rewrite app_assoc.
Qed.

Create HintDb keeps_open.

#[local] Hint Resolve keeps_open_ret keeps_open_raise keeps_open_history
  keeps_open_outcome keeps_open_answer keeps_open_bind : keeps_open.

Ltac keeps_open :=
  repeat first
    [ apply keeps_open_bind; [|intros ?]
    | apply keeps_open_emit; reflexivity
    | solve [auto with keeps_open] ].

Section Scoped.
Context {host : Host}.


Lemma exit_closes h w :
  trace (snd (OpenResource_exit h w)) = trace w ++ [EvClose h].
Proof.
  unfold OpenResource_exit, resource_close, bind, history, emit, outcome.
  cbn. now destruct (visa_close (trace w) h).
Qed.





End Scoped.


(** Outside the scope: when [__enter__] itself raises after
    [open_resource] returned, here on a timeout the resource refuses,
    neither the body nor [__exit__] runs and the handle is not closed. *)
Lemma enter_failure_skips_exit :
  run_transport (host := strict_host)
    (TransportWrite "OUTP ON" (Some 10000000000%Z)) gs200 start_world
  = (inl (ValueError "timeout value is invalid"),
     after start_world
       [EvOpenResource "@py" (Some "GPIB0::1::INSTR"%string) 1000 (Some 0);
        EvSetWriteTermination 0 newline;
        EvSetTimeout 0 10000000000]).
Proof. reflexivity. Qed.

(** ** Construction of the transport backend *)

Section Construction.
Context {host : Host}.

Lemma prepare_returns loc endl logger w :
  exists self w1 lib,
    PyVisaBackend_prepare loc endl logger w = (inr self, w1)
    /\ self = PyVisaBackend_fields loc endl lib (pv_logger self)
    /\ trace w1 = trace w ++ [EvResourceManager lib]
    /\ match logger with
       | Some l => pv_logger self = l /\ level_of l w1 = level_of l w
       | None => level_of (pv_logger self) w1 = INFO
       end.
Proof.
  unfold PyVisaBackend_prepare.
  destruct (String.prefix "linux" sys_platform);
    [|destruct (String.prefix "win32" sys_platform)];
    destruct logger as [l|]; cbn;
    eexists _, _, _; repeat split; try reflexivity;
    unfold level_of; cbn; now rewrite lookup_insert_eq.
Qed.

Lemma init_unfold loc endl check logger w self w1 :
  PyVisaBackend_prepare loc endl logger w = (inr self, w1) ->
  PyVisaBackend_init loc endl check logger w
  = if check then identify self INFO w1
    else if (level_of (pv_logger self) w1 <=? DEBUG)%Z
         then identify self DEBUG w1
         else (inr self, w1).
Proof.
  unfold PyVisaBackend_prepare, PyVisaBackend_init, identify.
  destruct (String.prefix "linux" sys_platform);
    [|destruct (String.prefix "win32" sys_platform)];
    destruct logger as [l|]; cbn; intros [= <- <-];
    destruct check; try reflexivity; cbn;
    match goal with |- context [(?a <=? ?b)%Z] => destruct (a <=? b)%Z end;
    reflexivity.
Qed.

Lemma open_resource_first rm loc t w :
  exists o,
    trace (snd (rm_open_resource rm loc t w))
    = trace w ++ [EvOpenResource rm loc t o].
Proof.
  unfold rm_open_resource, bind, history. cbn.
  destruct (visa_open_resource (trace w) rm loc t); cbn; eauto.
Qed.

(** Whatever happens in the scope, the first event of a [with] statement
    is the call of [open_resource]. *)
Lemma with_OpenResource_opens {A} cm (body : handle -> M A) w :
  (forall h, keeps_open h (body h)) ->
  exists o rest,
    trace (snd (with_OpenResource cm body w))
    = trace w
      ++ EvOpenResource (or_rm cm) (or_resource_location cm) 1000 o :: rest.
Proof.
  intros Hbody.
  assert (Henter : exists o rest,
    trace (snd (OpenResource_enter cm w))
    = trace w
      ++ EvOpenResource (or_rm cm) (or_resource_location cm) 1000 o :: rest).
  { unfold OpenResource_enter. unfold bind at 1.
    destruct (open_resource_first (or_rm cm) (or_resource_location cm) 1000 w)
      as (o & Ho).
    destruct (rm_open_resource _ _ _ w) as [[e|h] w0]; cbn [snd] in *.
    - exists o, []. exact Ho.
    - match goal with |- context [snd (?m w0)] =>
        assert (Hrest : keeps_open 0 m)
          by (unfold resource_set_write_termination, resource_set_timeout;
              keeps_open; destruct (or_timeout cm); keeps_open);
        destruct (Hrest w0) as (evs & Hevs & _)
      end.
      exists o, evs. rewrite Hevs, Ho, <- app_assoc. reflexivity. }
  destruct Henter as (o & rest & Henter).
  unfold with_OpenResource.
  destruct (OpenResource_enter cm w) as [[e|h] w1]; cbn [snd] in *.
  - now exists o, rest.
  - destruct (Hbody h w1) as (evs & Hevs & _).
    destruct (body h w1) as [r w2]. cbn [snd] in Hevs.
    pose proof (exit_closes h w2) as Hexit.
    exists o, (rest ++ evs ++ [EvClose h]).
    destruct (OpenResource_exit h w2) as [[e|u] w3]; cbn [snd] in *;
      rewrite Hexit, Hevs, Henter, <- !app_assoc; reflexivity.
Qed.

Lemma identify_opens self level w :
  exists o rest,
    trace (snd (identify self level w))
    = trace w ++ EvOpenResource (rm self) (resource_location self) 1000 o :: rest.
Proof.
  unfold identify, PyVisaBackend_query. unfold bind at 1.
  match goal with |- context [with_OpenResource ?cm ?body w] =>
    destruct (with_OpenResource_opens cm body w) as (o & rest & Hq);
      [intros h; unfold resource_query; keeps_open|];
    destruct (with_OpenResource cm body w) as [[e|idn] w2]
  end; cbn [snd] in *.
  - now exists o, rest.
  - exists o, (rest ++ [EvLog (pv_logger self) level ("Connected to " ++ idn)%string]).
    cbn. rewrite Hq, <- app_assoc. reflexivity.
Qed.

(** C8. Constructed with the check flag set, the transport backend runs
    the identification query right after its fields are assigned; when
    the query returns, its result is logged at level INFO and the
    instance is returned; when the query raises, the constructor raises
    the same exception and logs nothing. *)
Theorem check_flag_queries_identification (location : option string)
    (endline : string) (logger : option string) (w : world) :
  exists self w1,
    PyVisaBackend_prepare location endline logger w = (inr self, w1)
    /\ match PyVisaBackend_query self "*IDN?" None w1 with
       | (inl e, w2) =>
           PyVisaBackend_init location endline true logger w
           = (inl e, w2)
       | (inr idn, w2) =>
           exists w3,
             PyVisaBackend_init location endline true logger w
             = (inr self, w3)
             /\ added w2 w3
                  [EvLog (pv_logger self) INFO ("Connected to " ++ idn)%string]
       end.
Proof.
  destruct (prepare_returns location endline logger w)
    as (self & w1 & lib & Hprep & _).
  exists self, w1. split; [exact Hprep|].
  rewrite (init_unfold _ _ true _ _ _ _ Hprep).
  unfold identify, bind.
  destruct (PyVisaBackend_query self "*IDN?" None w1) as [[e|idn] w2];
    [reflexivity|].
  eexists. split; reflexivity.
Qed.

(** C9. Constructed with the check flag unset, the transport backend
    still runs the identification query, and logs its result at level
    DEBUG, whenever the level of its logger is DEBUG or lower, which
    includes a supplied logger whose level was never set; the default
    logger has level INFO. Whatever the flag, construction reaches for the
    instrument exactly when the flag is set or that level is DEBUG or
    lower. *)
Theorem debug_level_queries_identification (location : option string)
    (endline : string) (check : bool) (logger : option string) (w : world) :
  exists self w1 evs,
    PyVisaBackend_prepare location endline logger w = (inr self, w1)
    /\ match logger with
       | Some l => pv_logger self = l /\ level_of l w1 = level_of l w
       | None => level_of (pv_logger self) w1 = INFO
       end
    /\ PyVisaBackend_init location endline false logger w
       = (if (level_of (pv_logger self) w1 <=? DEBUG)%Z
          then identify self DEBUG w1
          else (inr self, w1))
    /\ added w (snd (PyVisaBackend_init location endline check logger w))
         evs
    /\ existsb is_io evs
       = check || (level_of (pv_logger self) w1 <=? DEBUG)%Z.
Proof.
  destruct (prepare_returns location endline logger w)
    as (self & w1 & lib & Hprep & Hself & Htrace & Hlevel).
  assert (Hio : forall level, exists evs,
    added w (snd (identify self level w1)) evs /\ existsb is_io evs = true).
  { intros level. destruct (identify_opens self level w1) as (o & rest & Hq).
    exists (EvResourceManager lib :: EvOpenResource (rm self)
              (resource_location self) 1000 o :: rest).
    split; [|reflexivity].
    unfold added. rewrite Hq, Htrace, <- app_assoc. reflexivity. }
  rewrite (init_unfold _ _ check _ _ _ _ Hprep).
  rewrite (init_unfold _ _ false _ _ _ _ Hprep).
  destruct check; cbn [orb].
  - destruct (Hio INFO) as (evs & Hadd & Hevs).
    exists self, w1, evs. repeat split; try assumption; reflexivity.
  - destruct (level_of (pv_logger self) w1 <=? DEBUG)%Z eqn:Hlv.
    + destruct (Hio DEBUG) as (evs & Hadd & Hevs).
      exists self, w1, evs. rewrite Hlv.
      repeat split; try assumption; reflexivity.
    + exists self, w1, [EvResourceManager lib]. rewrite Hlv.
      repeat split; try assumption; reflexivity.
Qed.

End Construction.

(** ** The attribute guard *)

Lemma getattr_plain self name w :
  is_property self name = false ->
  getattr self name w
  = match plain_lookup self name with
    | Some v => (inr v, w)
    | None => (inl (AttributeError ("object has no attribute '" ++ name ++ "'")%string), w)
    end.
Proof.
  unfold is_property, getattr, plain_lookup. intros Hplain.
  destruct (inst_class self !! name) as [[v|p]|]; try discriminate;
    destruct (inst_dict self !! name); reflexivity.
Qed.

Lemma hasattr_plain self name w :
  is_property self name = false ->
  hasattr self name w = (inr (present self name), w).
Proof.
  intros Hplain. unfold hasattr, present. rewrite (getattr_plain _ _ _ Hplain).
  now destruct (plain_lookup self name).
Qed.

Lemma object_setattr_plain self name value w :
  is_property self name = false ->
  object_setattr self name value w = (inr (stored self name value), w).
Proof.
  unfold is_property, object_setattr, stored. intros Hplain.
  destruct (inst_class self !! name) as [[v|p]|]; try discriminate; reflexivity.
Qed.

Lemma getattr_stored self name value w :
  is_property self name = false ->
  getattr (stored self name value) name w = (inr value, w).
Proof.
  intros Hplain. rewrite getattr_plain by exact Hplain.
  unfold plain_lookup, stored. cbn. now rewrite lookup_insert_eq.
Qed.

(** The guard on a name that is not a property, when the attribute is
    there or the allow-list is an ordinary list. *)
Lemma setattr_plain self name value w :
  is_property self name = false ->
  present self name = true \/ allow_list_plain self = true ->
  LimitedAttributeSetter_setattr self name value w
  = if present self name || allow_listed self name
    then (inr (stored self name value), w)
    else (inl (no_such_attribute name), w).
Proof.
  intros Hplain Hcase. unfold LimitedAttributeSetter_setattr.
  unfold bind at 1. rewrite (hasattr_plain _ _ _ Hplain).
  destruct (present self name) eqn:Hpresent; cbn [orb].
  - unfold bind, ret. now apply object_setattr_plain.
  - destruct Hcase as [Hcase|Hlist]; [discriminate|].
    unfold allow_list_plain in Hlist. apply andb_true_iff in Hlist.
    destruct Hlist as [Hnot Hlist]. apply negb_true_iff in Hnot.
    unfold bind at 1. unfold bind at 1.
    rewrite (hasattr_plain _ _ _ Hnot). unfold present, allow_listed.
    destruct (plain_lookup self "_allow_attrs") as [allow|] eqn:Hallow.
    + unfold bind at 1. rewrite (getattr_plain _ _ _ Hnot), Hallow.
      destruct allow; try discriminate. cbn.
      destruct (existsb (names_text name) l);
        [now apply object_setattr_plain | reflexivity].
    + reflexivity.
Qed.

(** C5, amended. For a name that is not a property of the class, the
    guard does what the specification says: the assignment succeeds when
    the attribute exists or the name is in the allow-list, and the value
    is read back; otherwise it raises the [TypeError] that names the
    attribute; nothing else changes. For a name that is a property whose
    getter returns, the guard hands the value to the property: its setter
    runs, and a property without a setter raises [AttributeError]. *)
Theorem guard_assignment (self : instance) (name : string) (value : pyvalue)
    (w : world) :
  (is_property self name = false ->
   present self name = true \/ allow_list_plain self = true ->
   LimitedAttributeSetter_setattr self name value w
   = (if present self name || allow_listed self name
      then (inr (stored self name value), w)
      else (inl (no_such_attribute name), w))
   /\ getattr (stored self name value) name w = (inr value, w))
  /\ (forall p v w1,
        inst_class self !! name = Some (ClassProperty p) ->
        fget p (inst_dict self) w = (inr v, w1) ->
        LimitedAttributeSetter_setattr self name value w
        = match fset p with
          | Some setter => (setter (inst_dict self) value ;;; ret self) w1
          | None => (inl (AttributeError "can't set attribute"), w1)
          end).
Proof.
  split.
  - intros Hplain Hcase. split.
    + now apply setattr_plain.
    + now apply getattr_stored.
  - intros p v w1 Hclass Hget.
    unfold LimitedAttributeSetter_setattr, bind, hasattr, getattr.
    rewrite Hclass, Hget. cbn. unfold object_setattr. rewrite Hclass.
    now destruct (fset p).
Qed.

(** On a [VisaDriver] the attribute [idn] exists, yet assigning it raises
    [AttributeError]: the claim as stated fails there. *)
Lemma guard_claim_fails_on_idn :
  ~ guard_claim bench_driver "idn" (PyStr "x") start_world.
Proof.
  intros [Hexists _].
  destruct Hexists as (self' & w' & Hset & _).
  - left. vm_compute. reflexivity.
  - vm_compute in Hset. discriminate Hset.
Qed.

(** The three cases of the guard on a driver: an attribute that exists, a
    name that is allow-listed on a fresh instance, a misspelt name; and
    the read-only property. *)
Lemma guard_assignment_witness :
  (LimitedAttributeSetter_setattr bench_driver "logger"
     (PyLogger "bench") start_world
   = (inr (stored bench_driver "logger" (PyLogger "bench")), start_world)
   /\ getattr (stored bench_driver "logger"
                (PyLogger "bench")) "logger" start_world
      = (inr (PyLogger "bench"), start_world))
  /\ LimitedAttributeSetter_setattr
       (new_instance (VisaDriver_class (host := bench_host))) "backend" PyNone start_world
     = (inr (stored (new_instance (VisaDriver_class (host := bench_host))) "backend"
               PyNone), start_world)
  /\ LimitedAttributeSetter_setattr bench_driver "loger"
       (PyLogger "bench") start_world
     = (inl (no_such_attribute "loger"), start_world)
  /\ fst (LimitedAttributeSetter_setattr bench_driver
            "idn" (PyStr "x") start_world)
     = inl (AttributeError "can't set attribute").
Proof.
  split; [|split; [|split]].
  - apply (proj1 (guard_assignment bench_driver "logger"
                    (PyLogger "bench") start_world));
      [reflexivity | left; reflexivity].
  - apply (proj1 (guard_assignment
                    (new_instance (VisaDriver_class (host := bench_host))) "backend" PyNone start_world));
      [reflexivity | right; reflexivity].
  - apply (proj1 (guard_assignment bench_driver "loger"
                    (PyLogger "bench") start_world));
      [reflexivity | right; reflexivity].
  - rewrite (proj2 (guard_assignment bench_driver "idn"
                      (PyStr "x") start_world)
               {| fget := fun self =>
                            do r <- VisaDriver_idn (host := bench_host) self ;;
                            ret (PyStr r);
                  fset := None |}
               (PyStr "0")
               (snd (VisaDriver_idn (host := bench_host)
                       (inst_dict bench_driver)
                       start_world))
               eq_refl eq_refl).
    reflexivity.
Defined.

(** ** Assignability over time *)

Lemma bind_inr {A B} (m : M A) (f : A -> M B) w b w' :
  bind m f w = (inr b, w') ->
  exists a w1, m w = (inr a, w1) /\ f a w1 = (inr b, w').
Proof.
  unfold bind. destruct (m w) as [[e|a] w1]; [discriminate|]. eauto.
Qed.











(** ** Drivers and the registry *)

Lemma oblivious_ret {A} (a : A) : oblivious (ret a).
Proof. now intros r w. Qed.

Lemma oblivious_raise {A} e : oblivious (@raise A e).
Proof. now intros r w. Qed.

Lemma oblivious_history : oblivious history.
Proof. now intros r w. Qed.

Lemma oblivious_emit e : oblivious (emit e).
Proof. now intros r w. Qed.

Lemma oblivious_outcome o : oblivious (outcome o).
Proof. destruct o; [apply oblivious_raise | apply oblivious_ret]. Qed.

Lemma oblivious_answer {A} (o : exn + A) : oblivious (answer o).
Proof. destruct o; [apply oblivious_raise | apply oblivious_ret]. Qed.

Lemma oblivious_bind {A B} (m : M A) (f : A -> M B) :
  oblivious m -> (forall a, oblivious (f a)) -> oblivious (bind m f).
Proof.
  intros Hm Hf r w. unfold bind. rewrite Hm.
  destruct (m w) as [[e|a] w1]; cbn [fst snd]; [reflexivity | apply Hf].
Qed.

Create HintDb oblivious.

#[local] Hint Resolve oblivious_ret oblivious_raise oblivious_history
  oblivious_emit oblivious_outcome oblivious_answer : oblivious.

Ltac oblivious :=
  repeat first
    [ solve [auto with oblivious]
    | apply oblivious_bind; [|intros ?] ].

Section Bound.
Context {host : Host}.

Lemma oblivious_enter cm : oblivious (OpenResource_enter cm).
Proof.
  unfold OpenResource_enter, rm_open_resource, resource_set_write_termination,
    resource_set_timeout.
  oblivious.
  - destruct (visa_open_resource _ _ _ _); oblivious.
  - destruct (or_timeout cm); oblivious.
Qed.

Lemma oblivious_with {A} cm (body : handle -> M A) :
  (forall h, oblivious (body h)) -> oblivious (with_OpenResource cm body).
Proof.
  intros Hbody r w. unfold with_OpenResource. rewrite oblivious_enter.
  destruct (OpenResource_enter cm w) as [[e|h] w1]; cbn [fst snd];
    [reflexivity|].
  rewrite Hbody. destruct (body h w1) as [res w2]. cbn [fst snd].
  assert (Hexit : oblivious (OpenResource_exit h))
    by (unfold OpenResource_exit, resource_close; oblivious).
  rewrite Hexit.
  now destruct (OpenResource_exit h w2) as [[e|u] w3].
Qed.

Ltac backend_cases b :=
  destruct b as [pv|lg|td]; cbn;
  [ apply oblivious_with; intros h;
    unfold resource_write, resource_query, resource_read; oblivious
  | unfold LoggerBackend_write, LoggerBackend_query, LoggerBackend_read,
      LoggerBackend_write_and_read, LoggerBackend_close, Logger_log; oblivious
  | unfold TestDouble_write, TestDouble_query, TestDouble_read,
      TestDouble_write_and_read, TestDouble_close; oblivious ].

Lemma oblivious_write b m t : oblivious (Backend_write b m t).
Proof. backend_cases b. Qed.

Lemma oblivious_query b m t : oblivious (Backend_query b m t).
Proof. backend_cases b. Qed.

Lemma oblivious_read b t : oblivious (Backend_read b t).
Proof. backend_cases b. Qed.

Lemma oblivious_close b : oblivious (Backend_close b).
Proof.
  destruct b as [pv|lg|td]; cbn.
  - unfold PyVisaBackend_close, rm_close. oblivious.
  - unfold LoggerBackend_close, Logger_log. oblivious.
  - unfold TestDouble_close. oblivious.
Qed.

Lemma oblivious_self_backend self : oblivious (self_backend self).
Proof.
  unfold self_backend. destruct (self !! "backend") as [[]|]; oblivious.
Qed.

#[local] Hint Resolve oblivious_write oblivious_query oblivious_read
  oblivious_close oblivious_self_backend : oblivious.

(** No operation of a driver reads or writes the registry. *)
Lemma oblivious_run_call c self : oblivious (run_call c self).
Proof.
  destruct c; cbn [run_call];
    unfold returns_none, returns_text, VisaDriver_write, VisaDriver_ask,
      VisaDriver_read, VisaDriver_write_and_read, VisaDriver_close,
      VisaDriver_idn, VisaDriver_get_error, VisaDriver_print_error,
      VisaDriver_reset, VisaDriver_clear, VisaDriver_get_error,
      VisaDriver_ask, VisaDriver_write;
    oblivious.
Qed.

Lemma bind_ext {A B} (m m' : M A) (f f' : A -> M B) w :
  (forall w0, m w0 = m' w0) -> (forall a w0, f a w0 = f' a w0) ->
  bind m f w = bind m' f' w.
Proof.
  intros Hm Hf. unfold bind. rewrite Hm.
  destruct (m' w) as [[e|a] w1]; [reflexivity | apply Hf].
Qed.

(** Each operation of a driver comes down to methods of the backend held
    under [backend]. *)
Lemma run_call_on_backend c self b w :
  self !! "backend" = Some (PyBackend b) ->
  run_call c self w = on_backend c b w.
Proof.
  intros Hb.
  assert (Hself : forall A (k : Backend -> M A) w0,
            bind (self_backend self) k w0 = k b w0).
  { intros A k w0. unfold bind, self_backend. now rewrite Hb. }
  destruct c; cbn [run_call on_backend];
    unfold returns_none, returns_text, VisaDriver_write, VisaDriver_ask,
      VisaDriver_read, VisaDriver_write_and_read, VisaDriver_close,
      VisaDriver_idn, VisaDriver_get_error, VisaDriver_print_error,
      VisaDriver_reset, VisaDriver_clear, VisaDriver_get_error,
      VisaDriver_ask, VisaDriver_write;
    repeat first
      [ reflexivity
      | rewrite Hself; cbv beta
      | apply bind_ext; intros ].
Qed.

End Bound.

Lemma oblivious_registry {A} (m : M A) w :
  oblivious m -> visa_backend (snd (m w)) = visa_backend w.
Proof.
  intros Hm. specialize (Hm (visa_backend w) w).
  assert (Hw : set_visa_backend (visa_backend w) w = w) by now destruct w.
  rewrite Hw in Hm. destruct (m w) as [r w1]. cbn [fst snd] in *.
  injection Hm as Hm. now rewrite Hm.
Qed.

Lemma oblivious_default_logger name logger : oblivious (default_logger name logger).
Proof.
  destruct logger; cbn; [apply oblivious_ret|].
  unfold getLogger. oblivious. now intros r w.
Qed.

Section Built.
Context {host : Host}.

Lemma oblivious_Backend_new B loc endl check logger :
  oblivious (Backend_new B loc endl check logger).
Proof.
  assert (Hq : forall self, oblivious (PyVisaBackend_query self "*IDN?" None)).
  { intros self. apply (oblivious_query (PyVisaBackendInst self)). }
  destruct B as [| |t]; cbn [Backend_new].
  - unfold PyVisaBackend_init, ResourceManager, Logger_log.
    apply oblivious_bind; [|intros self; apply oblivious_ret].
    apply oblivious_bind.
    { destruct (String.prefix "linux" sys_platform);
        [|destruct (String.prefix "win32" sys_platform)]; oblivious. }
    intros rm0. apply oblivious_bind; [apply oblivious_default_logger|].
    intros lg. destruct check.
    + oblivious.
    + apply oblivious_bind; [now intros r w|]. intros level.
      destruct (level <=? DEBUG)%Z; oblivious.
  - unfold LoggerBackend_init.
    apply oblivious_bind; [apply oblivious_default_logger | intros; oblivious].
  - unfold TestDouble_init. oblivious.
Qed.

Lemma Backend_new_type B loc endl check logger w b w' :
  Backend_new B loc endl check logger w = (inr b, w') -> backend_type b = B.
Proof.
  destruct B as [| |t]; cbn [Backend_new]; intros H;
    apply bind_inr in H as (x & w1 & Hx & [= <- <-]); try reflexivity.
  cbn. unfold TestDouble_init in Hx.
  apply bind_inr in Hx as (tr & w2 & _ & Hx).
  apply bind_inr in Hx as (u & w3 & _ & Hx).
  apply bind_inr in Hx as (u' & w4 & _ & [= <- <-]). reflexivity.
Qed.

(** What [VisaDriver(...)] returns when it returns: the fresh instance
    with its logger and with an instance of the backend type in force
    when it was called. *)
Lemma VisaDriver_new_result loc endl check logger w d w' :
  VisaDriver_new loc endl check logger w = (inr d, w') ->
  exists lg b,
    d = stored (stored (new_instance VisaDriver_class) "logger" (PyLogger lg))
          "backend" (PyBackend b)
    /\ backend_type b = selected w
    /\ visa_backend w' = Some (selected w).
Proof.
  unfold VisaDriver_new, VisaDriver_init. intros H.
  apply bind_inr in H as (lg & wa & Hlg & H).
  apply bind_inr in H as (self1 & wa' & Hset1 & H).
  rewrite setattr_plain in Hset1 by (try right; reflexivity).
  change (present (new_instance VisaDriver_class) "logger"
          || allow_listed (new_instance VisaDriver_class) "logger")
    with true in Hset1.
  cbv iota in Hset1. injection Hset1 as <- <-.
  apply bind_inr in H as (B & wb & HB & H).
  apply bind_inr in H as (b & wc & Hb & H).
  rewrite setattr_plain in H by (try right; reflexivity).
  change (present (stored (new_instance VisaDriver_class) "logger" (PyLogger lg))
            "backend"
          || allow_listed
               (stored (new_instance VisaDriver_class) "logger" (PyLogger lg))
               "backend")
    with true in H.
  cbv iota in H. injection H as <- <-.
  assert (Hwa : visa_backend wa = visa_backend w).
  { change wa with (snd (inr (A := exn) lg, wa)). rewrite <- Hlg.
    apply oblivious_registry, oblivious_default_logger. }
  assert (HBsel : B = selected w /\ visa_backend wb = Some (selected w)).
  { unfold get_backend in HB. unfold selected. rewrite <- Hwa.
    destruct (visa_backend wa) eqn:Hreg; injection HB as <- <-;
      split; try reflexivity; exact Hreg. }
  destruct HBsel as [-> Hwb].
  exists lg, b. split; [reflexivity|]. split.
  - eapply Backend_new_type, Hb.
  - rewrite <- Hwb. change wc with (snd (inr (A := exn) b, wc)). rewrite <- Hb.
    apply oblivious_registry, oblivious_Backend_new.
Qed.

(** C4. A driver that was constructed holds under [backend] an instance
    of the backend type that was in force in the registry when the
    constructor was called, and the registry holds that type afterwards.
    Every operation of the driver comes down to methods of that instance,
    and none reads or writes the registry: with any other selection, in
    particular after a later [set_backend], the operation returns the
    same, adds the same events and leaves the selection as it found it. *)
Theorem driver_keeps_its_backend (location : option string) (endl : string)
    (check : bool) (logger : option string) (w : world) (d : instance)
    (w' : world)
    (Hnew : VisaDriver_new location endl check logger w = (inr d, w')) :
  exists b,
    inst_dict d !! "backend" = Some (PyBackend b)
    /\ backend_type b = selected w
    /\ visa_backend w' = Some (selected w)
    /\ (forall c w1, run_call c (inst_dict d) w1 = on_backend c b w1)
    /\ (forall c r w1,
          run_call c (inst_dict d) (set_visa_backend r w1)
          = (fst (run_call c (inst_dict d) w1),
             set_visa_backend r (snd (run_call c (inst_dict d) w1))))
    /\ (forall c B w1,
          run_call c (inst_dict d) (snd (set_backend B w1))
          = (fst (run_call c (inst_dict d) w1),
             snd (set_backend B (snd (run_call c (inst_dict d) w1))))).
Proof.
  apply VisaDriver_new_result in Hnew as (lg & b & -> & Htype & Hreg).
  exists b. split; [|split; [|split; [|split; [|split]]]]; try assumption.
  - cbn. apply lookup_insert_eq.
  - intros c w1. apply run_call_on_backend. cbn. apply lookup_insert_eq.
  - intros c r w1. apply oblivious_run_call.
  - intros c B w1. apply (oblivious_run_call c _ (Some B) w1).
Qed.

End Built.

Lemma driver_keeps_its_backend_witness :
  VisaDriver_new (host := bench_host) None "" false None
    (snd (set_backend LoggerBackend start_world))
  = (inr bench_driver,
     snd (VisaDriver_new (host := bench_host) None "" false None
            (snd (set_backend LoggerBackend start_world))))
  /\ exists b,
       inst_dict bench_driver !! "backend" = Some (PyBackend b)
       /\ backend_type b = LoggerBackend
       /\ (forall c w1,
             run_call (host := bench_host) c (inst_dict bench_driver) w1
             = on_backend (host := bench_host) c b w1)
       /\ (forall c B w1,
             run_call (host := bench_host) c (inst_dict bench_driver)
               (snd (set_backend B w1))
             = (fst (run_call (host := bench_host) c (inst_dict bench_driver) w1),
                snd (set_backend B
                       (snd (run_call (host := bench_host) c
                               (inst_dict bench_driver) w1))))).
Proof.
  split; [reflexivity|].
  destruct (driver_keeps_its_backend (host := bench_host) None "" false None
              (snd (set_backend LoggerBackend start_world)) bench_driver _ eq_refl)
    as (b & Hb & Htype & _ & Hon & _ & Hset).
  exists b. repeat split; assumption.
Defined.

(** ** The registry and the drivers constructed after a selection *)

(** C3. With no backend selected, [get_backend] returns the transport
    backend type and stores it; in every run of registry calls each
    [get_backend] returns the type in force, which is the argument of the
    latest [set_backend] before it and the transport backend when there
    was none; after [set_backend(B)] every [get_backend] returns [B] until
    the next [set_backend], and a driver constructed then holds an
    instance of [B]. *)
Theorem registry_selection {host : Host} (calls : list registry_call)
    (backend : BackendType) (w : world) :
  get_backend (set_visa_backend None w)
    = (inr PyVisaBackend, set_visa_backend (Some PyVisaBackend) w)
  /\ fst (run_registry calls (set_visa_backend None w))
     = expected_gets PyVisaBackend calls
  /\ fst (run_registry calls w) = expected_gets (selected w) calls
  /\ get_backend (snd (set_backend backend w))
     = (inr backend, snd (set_backend backend w))
  /\ fst (run_registry calls (snd (set_backend backend w)))
     = expected_gets backend calls
  /\ visa_backend (snd (get_backend w)) = Some (selected w)
  /\ (forall location endl check logger d w',
        VisaDriver_new location endl check logger (snd (set_backend backend w))
        = (inr d, w') ->
        exists b,
          inst_dict d !! "backend" = Some (PyBackend b)
          /\ backend_type b = backend).
Proof.
  split; [reflexivity|]. split.
  { apply (run_registry_expected calls (set_visa_backend None w)). }
  split; [apply run_registry_expected|].
  split; [reflexivity|]. split.
  { apply (run_registry_expected calls (snd (set_backend backend w))). }
  split.
  - unfold get_backend, selected.
    destruct (visa_backend w) eqn:Hw; cbn [snd]; [exact Hw | reflexivity].
  - intros location endl check logger d w' Hnew.
    apply VisaDriver_new_result in Hnew as (lg & b & -> & Htype & _).
    exists b. split; [cbn; apply lookup_insert_eq | exact Htype].
Qed.

Lemma registry_selection_witness :
  VisaDriver_new (host := bench_host) None "" false None
    (snd (set_backend LoggerBackend start_world))
  = (inr bench_driver,
     snd (VisaDriver_new (host := bench_host) None "" false None
            (snd (set_backend LoggerBackend start_world))))
  /\ exists b,
       inst_dict bench_driver !! "backend" = Some (PyBackend b)
       /\ backend_type b = LoggerBackend.
Proof.
  split; [reflexivity|].
  apply (proj2 (proj2 (proj2 (proj2 (proj2 (proj2
           (registry_selection (host := bench_host) [] LoggerBackend
              start_world)))))) None ""%string false None bench_driver
           (snd (VisaDriver_new (host := bench_host) None "" false None
                   (snd (set_backend LoggerBackend start_world))))).
  reflexivity.
Defined.

(** ** The logging backend *)

Lemma after_after w a b : after (after w a) b = after w (a ++ b).
Proof. unfold after. cbn. now rewrite app_assoc. Qed.

Lemma after_nil w : after w [] = w.
Proof. unfold after. rewrite app_nil_r. now destruct w. Qed.

Section Logging.
Context {host : Host}.

Lemma logged_call lg c w :
  on_backend c (LoggerBackendInst lg) w
  = (inr (logged_result c), after w (logged_events lg c)).
Proof.
  destruct c; cbn; unfold after; cbn; rewrite <- ?app_assoc; reflexivity.
Qed.

Lemma logged_calls lg self calls :
  self !! "backend" = Some (PyBackend (LoggerBackendInst lg)) ->
  forall w,
    run_calls calls self w
    = (map (fun c => inr (logged_result c)) calls,
       after w (concat (map (logged_events lg) calls))).
Proof.
  intros Hb. induction calls as [|c rest IH]; intros w; cbn [run_calls map concat].
  - now rewrite after_nil.
  - rewrite (run_call_on_backend c self _ w Hb), logged_call, IH.
    now rewrite after_after.
Qed.

Lemma logged_events_quiet lg calls :
  existsb is_io (concat (map (logged_events lg) calls)) = false.
Proof.
  induction calls as [|c rest IH]; [reflexivity|].
  cbn [map concat]. rewrite existsb_app, IH. now destruct c.
Qed.

(** With the logging backend selected, the constructor of a driver
    returns, and the driver holds a logging backend. *)
Lemma logging_driver_built loc endl check logger w :
  exists d w' lg,
    VisaDriver_new loc endl check logger (snd (set_backend LoggerBackend w))
    = (inr d, w')
    /\ inst_dict d !! "backend" = Some (PyBackend (LoggerBackendInst lg)).
Proof.
  unfold VisaDriver_new, VisaDriver_init.
  destruct logger as [l|]; cbn [default_logger];
    unfold bind at 1; cbn;
    unfold bind at 1;
    rewrite setattr_plain by (try right; reflexivity);
    cbn; eexists _, _, _; (split; [reflexivity|]); cbn;
    apply lookup_insert_eq.
Qed.

(** C6. A driver on the logging backend: in every run of calls no call
    raises, each call returns the placeholder "0" if it returns text and
    nothing otherwise, and all that happens is that log entries (and the
    line of [print_error]) are added; nothing reaches for an instrument.
    [write] of the backend only logs its message; [query], [read] and
    [write_and_read] of the backend return "0", and so does [ask] of the
    driver for every message. With the logging backend selected, the
    constructor of the driver returns such a driver. *)
Theorem logging_backend_never_fails (lg : string) (self0 : attrs)
    (calls : list driver_call) (message : string) (timeout : option Z)
    (w : world) :
  let self := <["backend" := PyBackend (LoggerBackendInst lg)]> self0 in
  run_calls calls self w
  = (map (fun c => inr (logged_result c)) calls,
     after w (concat (map (logged_events lg) calls)))
  /\ existsb is_io (concat (map (logged_events lg) calls)) = false
  /\ Backend_write (LoggerBackendInst lg) message timeout w
     = (inr tt, after w [EvLog lg INFO ("Write: " ++ message ++ ".")%string])
  /\ fst (Backend_query (LoggerBackendInst lg) message timeout w) = inr "0"%string
  /\ fst (Backend_read (LoggerBackendInst lg) timeout w) = inr "0"%string
  /\ fst (Backend_write_and_read (LoggerBackendInst lg) message timeout w)
     = inr "0"%string
  /\ fst (VisaDriver_ask self message timeout w) = inr "0"%string
  /\ (forall location endl check logger,
      exists d w' lg',
        VisaDriver_new location endl check logger
          (snd (set_backend LoggerBackend w))
        = (inr d, w')
        /\ inst_dict d !! "backend" = Some (PyBackend (LoggerBackendInst lg'))).
Proof.
  intros self.
  assert (Hb : self !! "backend" = Some (PyBackend (LoggerBackendInst lg)))
    by apply lookup_insert_eq.
  repeat split; try reflexivity.
  - now apply logged_calls.
  - apply logged_events_quiet.
  - unfold VisaDriver_ask, bind, self_backend. now rewrite Hb.
  - intros location endl check logger. apply logging_driver_built.
Qed.

End Logging.

(** ** What [ask] returns *)

Section Ask.
Context {host : Host}.

(** What a [with] statement returns was returned by its body. *)
Lemma with_OpenResource_result {A} cm (body : handle -> M A) w r w' :
  with_OpenResource cm body w = (inr r, w') ->
  exists h w1 w2, body h w1 = (inr r, w2).
Proof.
  unfold with_OpenResource.
  destruct (OpenResource_enter cm w) as [[e|h] w1]; [discriminate|].
  destruct (body h w1) as [res w2] eqn:Hbody.
  destruct (OpenResource_exit h w2) as [[e|u] w3]; [discriminate|].
  intros [= -> <-]. eauto.
Qed.

Lemma PyVisaBackend_query_trimmed self message timeout w r w' :
  PyVisaBackend_query self message timeout w = (inr r, w') -> strip r = r.
Proof.
  unfold PyVisaBackend_query. intros H.
  apply with_OpenResource_result in H as (h & w1 & w2 & H).
  apply bind_inr in H as (raw & w3 & _ & [= <- <-]).
  apply strip_idempotent.
Qed.

(** C7, amended. [ask] returns what the query of the backend returned,
    as it is. The query of the transport backend trims the reply of the
    instrument and the query of the logging backend returns "0", so with
    these two backends what [ask] returns is trimmed. *)
Theorem ask_returns_backend_response (self0 : attrs) (b : Backend)
    (message : string) (timeout : option Z) (w : world) :
  VisaDriver_ask (<["backend" := PyBackend b]> self0) message timeout w
  = Backend_query b message timeout w
  /\ (forall pv,
        ask_trims (<["backend" := PyBackend (PyVisaBackendInst pv)]> self0)
          message timeout w)
  /\ (forall lg,
        ask_trims (<["backend" := PyBackend (LoggerBackendInst lg)]> self0)
          message timeout w).
Proof.
  assert (Hask : forall b0 w0,
    VisaDriver_ask (<["backend" := PyBackend b0]> self0) message timeout w0
    = Backend_query b0 message timeout w0).
  { intros b0 w0. unfold VisaDriver_ask, bind, self_backend.
    now rewrite lookup_insert_eq. }
  split; [apply Hask|]. split.
  - intros pv b0 r w' Hb Hq. rewrite lookup_insert_eq in Hb.
    injection Hb as <-. rewrite Hask, Hq.
    cbn in Hq. now rewrite (PyVisaBackend_query_trimmed _ _ _ _ _ _ Hq).
  - intros lg b0 r w' Hb Hq. rewrite lookup_insert_eq in Hb.
    injection Hb as <-. rewrite Hask, Hq.
    cbn in Hq. injection Hq as <- _. reflexivity.
Qed.

End Ask.

Lemma ask_returns_backend_response_witness :
  VisaDriver_ask (host := bench_host)
    (<["backend" := PyBackend (PyVisaBackendInst gs200)]> ∅) "*IDN?" None
    start_world
  = (inr "ACME,GS200,0,1.0"%string,
     snd (PyVisaBackend_query (host := bench_host) gs200 "*IDN?" None start_world))
  /\ strip "ACME,GS200,0,1.0" = "ACME,GS200,0,1.0"%string.
Proof.
  split; [|reflexivity].
  apply (proj1 (proj2 (ask_returns_backend_response (host := bench_host) ∅
                         (PyVisaBackendInst gs200) "*IDN?" None start_world))
           gs200 (PyVisaBackendInst gs200) "ACME,GS200,0,1.0"%string
           (snd (PyVisaBackend_query (host := bench_host) gs200 "*IDN?" None
                   start_world)));
    [apply lookup_insert_eq | reflexivity].
Defined.

(** With a backend whose query returns its reply untrimmed, [ask] returns
    it untrimmed. *)
Lemma ask_trims_fails_on_padded_reply :
  ~ ask_trims (host := bench_host) (driver_with (TestDoubleInst padded_double))
      "OUTP?" None start_world.
Proof.
  intros H.
  specialize (H (TestDoubleInst padded_double) " 1 "%string
                (snd (Backend_query (host := bench_host)
                        (TestDoubleInst padded_double) "OUTP?" None start_world))
                eq_refl eq_refl).
  vm_compute in H. discriminate H.
Qed.

(** ** Computations that only add events *)

Lemma opens_app h a b : opens h (a ++ b) = opens h a + opens h b.
Proof.
  induction a as [|e a IH]; [reflexivity|].
  destruct e as [| ? ? ? [h'|] | | | | | | | | | | ]; simpl; rewrite ?IH;
    try reflexivity.
  now rewrite Nat.add_assoc.
Qed.

Lemma settled_nil : settled [].
Proof. now intros h. Qed.

Lemma settled_app a b : settled a -> settled b -> settled (a ++ b).
Proof. intros Ha Hb h. now rewrite opens_app, closes_app, Ha, Hb. Qed.

Lemma inert_nil : inert [].
Proof. now intros h. Qed.

Lemma inert_app a b : inert a -> inert b -> inert (a ++ b).
Proof.
  intros Ha Hb h. destruct (Ha h) as [Ho Hc]. destruct (Hb h) as [Ho' Hc'].
  now rewrite opens_app, closes_app, Ho, Hc, Ho', Hc'.
Qed.

Lemma inert_settled evs : inert evs -> settled evs.
Proof. intros H h. destruct (H h) as [-> ->]. reflexivity. Qed.

Section Adds.
Variable P : list event -> Prop.
Hypothesis P_nil : P [].
Hypothesis P_app : forall a b, P a -> P b -> P (a ++ b).

Lemma adds_ret {A} (a : A) : adds P (ret a).
Proof. intros w. exists []. now rewrite after_nil. Qed.

Lemma adds_raise {A} e : adds P (@raise A e).
Proof. intros w. exists []. now rewrite after_nil. Qed.

Lemma adds_history : adds P history.
Proof. intros w. exists []. now rewrite after_nil. Qed.

Lemma adds_outcome o : adds P (outcome o).
Proof. destruct o; [apply adds_raise | apply adds_ret]. Qed.

Lemma adds_answer {A} (o : exn + A) : adds P (answer o).
Proof. destruct o; [apply adds_raise | apply adds_ret]. Qed.

Lemma adds_emit e : P [e] -> adds P (emit e).
Proof. intros He w. now exists [e]. Qed.

Lemma adds_bind {A B} (m : M A) (f : A -> M B) :
  adds P m -> (forall a, adds P (f a)) -> adds P (bind m f).
Proof.
  intros Hm Hf w. unfold bind.
  destruct (Hm w) as (e1 & H1 & P1).
  destruct (m w) as [[e|a] w1]; cbn [snd] in *.
  - now exists e1.
  - destruct (Hf a w1) as (e2 & H2 & P2).
    exists (e1 ++ e2). rewrite H2, H1, after_after. auto.
Qed.

End Adds.

Lemma adds_weaken {A} (P Q : list event -> Prop) (m : M A) :
  (forall evs, P evs -> Q evs) -> adds P m -> adds Q m.
Proof.
  intros HPQ Hm w. destruct (Hm w) as (evs & H & HP). eauto.
Qed.

(** The steps of which the bodies of the scopes, the logging backend and the
    test doubles are made add inert events. *)
Ltac inert_steps :=
  repeat first
    [ apply adds_ret; exact inert_nil
    | apply adds_raise; exact inert_nil
    | apply adds_history; exact inert_nil
    | apply adds_outcome; exact inert_nil
    | apply adds_answer; exact inert_nil
    | apply adds_emit; intros ?; split; reflexivity
    | apply adds_bind; [exact inert_app | | intros ?] ].

(** ** The transport backend: failures to open, replies, handles *)

Section Transport.
Context {host : Host}.

Lemma inert_resource_write h m : adds inert (resource_write h m).
Proof. unfold resource_write. inert_steps. Qed.

Lemma inert_resource_read h : adds inert (resource_read h).
Proof. unfold resource_read. inert_steps. Qed.

Lemma inert_resource_query h m : adds inert (resource_query h m).
Proof. unfold resource_query. inert_steps. Qed.

(** The body of each of the four scopes neither opens nor closes. *)
Lemma transport_scoped c self :
  exists (body : handle -> M pyvalue),
    (forall w, run_transport c self w
               = with_OpenResource
                   (PyVisaBackend_scope self (transport_timeout c)) body w)
    /\ forall h, adds inert (body h).
Proof.
  destruct c as [m t|m t|t|m t]; cbn [run_transport transport_timeout].
  - exists (fun h => resource_write h m ;;; ret PyNone). split.
    + intros w. unfold returns_none, PyVisaBackend_write, with_OpenResource, bind, ret.
      destruct (OpenResource_enter _ w) as [[e|h] w1]; [reflexivity|].
      destruct (resource_write h m w1) as [[e|u] w2]; cbv beta iota zeta;
        now destruct (OpenResource_exit h w2) as [[e'|u'] w3].
    + intros h. pose proof (inert_resource_write h m). inert_steps; try assumption.
  - exists (fun h => do r <- resource_query h m ;; ret (PyStr (strip r))). split.
    + intros w. unfold returns_text, PyVisaBackend_query, with_OpenResource, bind, ret.
      destruct (OpenResource_enter _ w) as [[e|h] w1]; [reflexivity|].
      destruct (resource_query h m w1) as [[e|u] w2]; cbv beta iota zeta;
        now destruct (OpenResource_exit h w2) as [[e'|u'] w3].
    + intros h. pose proof (inert_resource_query h m). inert_steps; try assumption.
  - exists (fun h => do r <- resource_read h ;; ret (PyStr (strip r))). split.
    + intros w. unfold returns_text, PyVisaBackend_read, with_OpenResource, bind, ret.
      destruct (OpenResource_enter _ w) as [[e|h] w1]; [reflexivity|].
      destruct (resource_read h w1) as [[e|u] w2]; cbv beta iota zeta;
        now destruct (OpenResource_exit h w2) as [[e'|u'] w3].
    + intros h. pose proof (inert_resource_read h). inert_steps; try assumption.
  - exists (fun h => resource_write h m ;;;
                     do r <- resource_read h ;; ret (PyStr (strip r))). split.
    + intros w. unfold returns_text, PyVisaBackend_write_and_read,
        with_OpenResource, bind, ret.
      destruct (OpenResource_enter _ w) as [[e|h] w1]; [reflexivity|].
      destruct (resource_write h m w1) as [[e|u] w2]; cbv beta iota zeta;
        [now destruct (OpenResource_exit h w2) as [[e'|u'] w3]|].
      destruct (resource_read h w2) as [[e|r] w3]; cbv beta iota zeta;
        now destruct (OpenResource_exit h w3) as [[e'|u'] w4].
    + intros h. pose proof (inert_resource_write h m).
      pose proof (inert_resource_read h). inert_steps; try assumption.
Qed.

(** When [open_resource] raises, the [with] statement raises the same and
    nothing else is called. *)
Lemma with_OpenResource_unopened {A} cm (body : handle -> M A) w e :
  visa_open_resource (trace w) (or_rm cm) (or_resource_location cm) 1000 = Some e ->
  with_OpenResource cm body w
  = (inl e, after w [EvOpenResource (or_rm cm) (or_resource_location cm) 1000 None]).
Proof.
  intros Hopen.
  unfold with_OpenResource, OpenResource_enter, rm_open_resource, bind at 1 2.
  cbn. rewrite Hopen. reflexivity.
Qed.

(** [__enter__] when setting the timeout cannot fail: either nothing was
    opened, or the handle is returned. *)
Lemma enter_all_or_nothing cm w :
  or_timeout cm = None \/ (forall tr h t, visa_set_timeout tr h t = None) ->
  (exists e evs, OpenResource_enter cm w = (inl e, after w evs) /\ inert evs)
  \/ (exists cfg,
        OpenResource_enter cm w
        = (inr (opened_so_far (trace w)),
           after w (EvOpenResource (or_rm cm) (or_resource_location cm) 1000
                      (Some (opened_so_far (trace w))) :: cfg))
        /\ inert cfg).
Proof.
  intros Hsafe.
  unfold OpenResource_enter, rm_open_resource, resource_set_write_termination,
    resource_set_timeout, bind, history, emit, ret, raise. cbn.
  destruct (visa_open_resource (trace w) (or_rm cm) (or_resource_location cm) 1000)
    as [e|] eqn:Hopen; cbn.
  - left. exists e, [EvOpenResource (or_rm cm) (or_resource_location cm) 1000 None].
    split; [reflexivity | now intros h].
  - right. destruct (or_timeout cm) as [t|] eqn:Ht; cbn.
    + destruct Hsafe as [Hnone|Hsafe]; [discriminate|]. rewrite Hsafe. cbn.
      eexists. split; [unfold after; cbn; rewrite <- !app_assoc; reflexivity|].
      now intros h.
    + eexists. split; [unfold after; cbn; rewrite <- !app_assoc; reflexivity|].
      now intros h.
Qed.

Lemma opens_cons_opened h rm0 loc t h' evs :
  opens h (EvOpenResource rm0 loc t (Some h') :: evs)
  = (if Nat.eqb h h' then 1 else 0) + opens h evs.
Proof. reflexivity. Qed.

(** A scope whose [__enter__] is all or nothing leaves no handle open. *)
Lemma with_OpenResource_settled {A} cm (body : handle -> M A) :
  or_timeout cm = None \/ (forall tr h t, visa_set_timeout tr h t = None) ->
  (forall h, adds inert (body h)) ->
  adds settled (with_OpenResource cm body).
Proof.
  intros Hsafe Hbody w. unfold with_OpenResource.
  destruct (enter_all_or_nothing cm w Hsafe)
    as [(e & evs & -> & Hevs) | (cfg & -> & Hcfg)].
  - exists evs. split; [reflexivity | now apply inert_settled].
  - set (h := opened_so_far (trace w)).
    destruct (Hbody h (after w (EvOpenResource (or_rm cm) (or_resource_location cm)
                                  1000 (Some h) :: cfg)))
      as (evs & Hevs & Hinert).
    destruct (body h _) as [r w2]. cbn [snd] in Hevs. subst w2.
    exists ((EvOpenResource (or_rm cm) (or_resource_location cm) 1000 (Some h)
             :: cfg) ++ evs ++ [EvClose h]).
    split.
    + unfold OpenResource_exit, resource_close, bind, history, emit, outcome.
      cbn.
      destruct (visa_close _ h); cbn; unfold after; cbn;
        rewrite <- !app_assoc; reflexivity.
    + intros h'. rewrite opens_app, closes_app, opens_app, closes_app.
      rewrite opens_cons_opened.
      destruct (Hcfg h') as [-> Hc]. destruct (Hinert h') as [-> Hc'].
      change (closes h' (EvOpenResource (or_rm cm) (or_resource_location cm) 1000
                           (Some h) :: cfg)) with (closes h' cfg).
      rewrite Hc, Hc'. cbn. lia.
Qed.

(** X3. When [open_resource] raises, each of the four operations of the
    transport backend raises that exception and has called nothing else:
    no termination or timeout is set, nothing is written or read, nothing
    is closed. *)
Theorem unreachable_resource_raises (c : transport_call)
    (self : PyVisaBackendObj) (w : world) (e : exn)
    (Hopen : visa_open_resource (trace w) (rm self) (resource_location self) 1000
             = Some e) :
  run_transport c self w
  = (inl e,
     after w [EvOpenResource (rm self) (resource_location self) 1000 None]).
Proof.
  destruct (transport_scoped c self) as (body & -> & _).
  now apply with_OpenResource_unopened.
Qed.

(** X1. What [query], [read] and [write_and_read] of the transport
    backend return is trimmed: trimming it again changes nothing. *)
Theorem transport_replies_trimmed (c : transport_call) (self : PyVisaBackendObj)
    (w : world) (r : string) (w' : world)
    (Hreturned : run_transport c self w = (inr (PyStr r), w')) :
  strip r = r.
Proof.
  destruct (transport_scoped c self) as (body & Hrun & _).
  destruct c as [m t|m t|t|m t]; cbn [run_transport] in Hreturned;
    apply bind_inr in Hreturned as (x & w1 & Hx & [= <-]);
    unfold PyVisaBackend_query, PyVisaBackend_read, PyVisaBackend_write_and_read in Hx;
    apply with_OpenResource_result in Hx as (h & w2 & w3 & Hx).
  - apply bind_inr in Hx as (raw & w4 & _ & [= <- _]). apply strip_idempotent.
  - apply bind_inr in Hx as (raw & w4 & _ & [= <- _]). apply strip_idempotent.
  - apply bind_inr in Hx as (u & w4 & _ & Hx).
    apply bind_inr in Hx as (raw & w5 & _ & [= <- _]). apply strip_idempotent.
Qed.

End Transport.

(** ** Drivers leave no connection open *)

Ltac settled_steps :=
  repeat first
    [ assumption
    | apply adds_ret; exact settled_nil
    | apply adds_raise; exact settled_nil
    | apply adds_history; exact settled_nil
    | apply adds_outcome; exact settled_nil
    | apply adds_answer; exact settled_nil
    | apply adds_emit; intros ?; reflexivity
    | apply adds_bind; [exact settled_app | | intros ?] ].

Section Settled.
Context {host : Host}.

Ltac settled_backend b Hsafe :=
  destruct b as [pv|lg|td]; cbn;
  [ apply with_OpenResource_settled; [exact Hsafe|]; intros h;
    unfold resource_write, resource_query, resource_read; inert_steps
  | unfold LoggerBackend_write, LoggerBackend_query, LoggerBackend_read,
      LoggerBackend_close, Logger_log; settled_steps
  | unfold TestDouble_write, TestDouble_query, TestDouble_read,
      TestDouble_close; settled_steps ].

Lemma settled_Backend_write b m t :
  t = None \/ (forall tr h t0, visa_set_timeout tr h t0 = None) ->
  adds settled (Backend_write b m t).
Proof. intros Hsafe. settled_backend b Hsafe. Qed.

Lemma settled_Backend_query b m t :
  t = None \/ (forall tr h t0, visa_set_timeout tr h t0 = None) ->
  adds settled (Backend_query b m t).
Proof. intros Hsafe. settled_backend b Hsafe. Qed.

Lemma settled_Backend_read b t :
  t = None \/ (forall tr h t0, visa_set_timeout tr h t0 = None) ->
  adds settled (Backend_read b t).
Proof. intros Hsafe. settled_backend b Hsafe. Qed.

Lemma settled_Backend_close b : adds settled (Backend_close b).
Proof.
  destruct b as [pv|lg|td]; cbn.
  - unfold PyVisaBackend_close, rm_close. settled_steps.
  - unfold LoggerBackend_close, Logger_log. settled_steps.
  - unfold TestDouble_close. settled_steps.
Qed.

Lemma settled_self_backend self : adds settled (self_backend self).
Proof.
  unfold self_backend. destruct (self !! "backend") as [[]|]; settled_steps.
Qed.

Lemma settled_run_call c self :
  call_timeout c = None \/ (forall tr h t, visa_set_timeout tr h t = None) ->
  adds settled (run_call c self).
Proof.
  intros Hsafe.
  assert (Hnone : (None : option Z) = None
                  \/ (forall tr h t, visa_set_timeout tr h t = None))
    by now left.
  pose proof (settled_self_backend self) as Hself.
  pose proof settled_Backend_close as Hclose.
  pose proof (fun b m => settled_Backend_write b m None Hnone) as Hw.
  pose proof (fun b m => settled_Backend_query b m None Hnone) as Hq.
  destruct c as [m t|m t|t|m t| | | | | |]; cbn [run_call call_timeout] in *;
    try (pose proof (fun b m => settled_Backend_write b m t Hsafe) as Hwt;
         pose proof (fun b m => settled_Backend_query b m t Hsafe) as Hqt;
         pose proof (fun b => settled_Backend_read b t Hsafe) as Hrt);
    unfold returns_none, returns_text, VisaDriver_write, VisaDriver_ask,
      VisaDriver_read, VisaDriver_write_and_read, VisaDriver_close,
      VisaDriver_idn, VisaDriver_get_error, VisaDriver_print_error,
      VisaDriver_reset, VisaDriver_clear, VisaDriver_get_error,
      VisaDriver_ask, VisaDriver_write;
    settled_steps; auto.
Qed.

(** X4. In every run of driver calls that pass no per-call timeout, or on
    a host whose resources never refuse a timeout, and with whatever
    backend: the run changes the process only by adding events to the
    trace, and among these every handle that was opened is closed exactly
    as often; no connection stays open, whichever calls raised. *)
Theorem driver_calls_leave_no_handle_open (calls : list driver_call)
    (self : attrs) (w : world)
    (Hsafe : (forall tr h t, visa_set_timeout tr h t = None)
             \/ Forall (fun c => call_timeout c = None) calls) :
  exists evs,
    snd (run_calls calls self w) = after w evs
    /\ forall h, opens h evs = closes h evs.
Proof.
  revert w. induction calls as [|c rest IH]; intros w; cbn [run_calls].
  - exists []. split; [now rewrite after_nil | exact settled_nil].
  - assert (Hc : call_timeout c = None
                 \/ (forall tr h t, visa_set_timeout tr h t = None)).
    { destruct Hsafe as [H|H]; [now right | left; now inversion H]. }
    assert (Hrest : (forall tr h t, visa_set_timeout tr h t = None)
                    \/ Forall (fun c => call_timeout c = None) rest).
    { destruct Hsafe as [H|H]; [now left | right; now inversion H]. }
    destruct (settled_run_call c self Hc w) as (e1 & H1 & S1).
    destruct (run_call c self w) as [r w1]. cbn [snd] in H1. subst w1.
    destruct (IH Hrest (after w e1)) as (e2 & H2 & S2).
    destruct (run_calls rest self (after w e1)) as [rs w2]. cbn [snd] in *.
    exists (e1 ++ e2). split; [now rewrite H2, after_after|].
    now apply settled_app.
Qed.

(** X2. What [read] of a driver returns is trimmed, whatever its backend
    returned. *)
Theorem driver_read_trimmed (self : attrs) (timeout : option Z) (w : world)
    (r : string) (w' : world)
    (Hreturned : VisaDriver_read self timeout w = (inr r, w')) :
  strip r = r.
Proof.
  unfold VisaDriver_read in Hreturned.
  apply bind_inr in Hreturned as (b & w1 & _ & H).
  apply bind_inr in H as (raw & w2 & _ & [= <- _]).
  apply strip_idempotent.
Qed.

End Settled.

(** ** Construction of drivers *)

Lemma setattr_allow_listed self name value w :
  is_property self name = false ->
  allow_list_plain self = true ->
  allow_listed self name = true ->
  LimitedAttributeSetter_setattr self name value w
  = (inr (stored self name value), w).
Proof.
  intros Hplain Hlist Hname.
  rewrite setattr_plain by (try right; assumption).
  now rewrite Hname, orb_true_r.
Qed.

Lemma plain_lookup_fresh cls name :
  plain_lookup (new_instance cls) name
  = match cls !! name with Some (ClassValue v) => Some v | _ => None end.
Proof. unfold plain_lookup, new_instance. cbn. now rewrite lookup_empty. Qed.

Lemma plain_lookup_stored_ne self k v name :
  k <> name ->
  plain_lookup (stored self k v) name = plain_lookup self name.
Proof.
  intros Hne. unfold plain_lookup, stored. cbn. now rewrite lookup_insert_ne.
Qed.

Section Constructed.
Context {host : Host}.

(** [VisaDriver.__init__] on a fresh instance of a class of drivers: the
    logger is chosen, the backend type in force is called with it, and the
    two attributes are stored. *)
Lemma VisaDriver_init_unfold cls loc endl check logger w :
  driver_class cls ->
  VisaDriver_init (new_instance cls) loc endl check logger w
  = match Backend_new (selected w) loc endl check (Some (driver_logger logger))
            (mkWorld (Some (selected w)) (driver_levels logger w) (trace w)) with
    | (inl e, w2) => (inl e, w2)
    | (inr b, w2) =>
        (inr (stored (stored (new_instance cls) "logger"
                        (PyLogger (driver_logger logger)))
                "backend" (PyBackend b)), w2)
    end.
Proof.
  intros (Hallow & Hlogger & Hbackend).
  assert (H0 : forall lg w0,
    LimitedAttributeSetter_setattr (new_instance cls) "logger" (PyLogger lg) w0
    = (inr (stored (new_instance cls) "logger" (PyLogger lg)), w0)).
  { intros lg w0. apply setattr_allow_listed.
    - unfold is_property. cbn. now rewrite Hlogger.
    - unfold allow_list_plain, is_property. rewrite plain_lookup_fresh. cbn.
      now rewrite Hallow.
    - unfold allow_listed. rewrite plain_lookup_fresh. now rewrite Hallow. }
  assert (H1 : forall lg b w0,
    LimitedAttributeSetter_setattr
      (stored (new_instance cls) "logger" (PyLogger lg)) "backend" (PyBackend b) w0
    = (inr (stored (stored (new_instance cls) "logger" (PyLogger lg))
              "backend" (PyBackend b)), w0)).
  { intros lg b w0. apply setattr_allow_listed.
    - unfold is_property. cbn. now rewrite Hbackend.
    - unfold allow_list_plain, is_property.
      rewrite plain_lookup_stored_ne, plain_lookup_fresh by discriminate. cbn.
      now rewrite Hallow.
    - unfold allow_listed.
      rewrite plain_lookup_stored_ne, plain_lookup_fresh by discriminate.
      now rewrite Hallow. }
  assert (Hlg : default_logger "driverlib.visa_driver" logger w
                = (inr (driver_logger logger),
                   mkWorld (visa_backend w) (driver_levels logger w) (trace w))).
  { destruct w as [reg lv tr]. now destruct logger. }
  assert (Hget : forall lv,
    get_backend (mkWorld (visa_backend w) lv (trace w))
    = (inr (selected w), mkWorld (Some (selected w)) lv (trace w))).
  { intros lv. unfold get_backend, selected. cbn.
    now destruct (visa_backend w). }
  unfold VisaDriver_init.
  unfold bind at 1. rewrite Hlg.
  unfold bind at 1. rewrite H0.
  unfold bind at 1. rewrite Hget.
  unfold bind at 1.
  destruct (Backend_new _ _ _ _ _ _) as [[e|b] w2]; [reflexivity | apply H1].
Qed.

Lemma adds_with_OpenResource {A} cm (body : handle -> M A) :
  (forall h, adds (fun _ => True) (body h)) ->
  adds (fun _ => True) (with_OpenResource cm body).
Proof.
  intros Hbody w. unfold with_OpenResource.
  assert (Henter : adds (fun _ => True) (OpenResource_enter cm)).
  { unfold OpenResource_enter, rm_open_resource, resource_set_write_termination,
      resource_set_timeout.
    repeat first
      [ apply adds_ret; exact I | apply adds_raise; exact I
      | apply adds_history; exact I | apply adds_outcome; exact I
      | apply adds_emit; exact I
      | apply adds_bind; [now intros | | intros ?]
      | destruct (visa_open_resource _ _ _ _)
      | destruct (or_timeout cm) ]. }
  destruct (Henter w) as (e1 & H1 & _).
  destruct (OpenResource_enter cm w) as [[e|h] w1]; cbn [snd] in H1; subst w1.
  - now exists e1.
  - destruct (Hbody h (after w e1)) as (e2 & H2 & _).
    destruct (body h (after w e1)) as [r w2]. cbn [snd] in H2. subst w2.
    exists (e1 ++ e2 ++ [EvClose h]). split; [|exact I].
    unfold OpenResource_exit, resource_close, bind, history, emit, outcome. cbn.
    destruct (visa_close _ h); cbn; unfold after; cbn;
      rewrite <- !app_assoc; reflexivity.
Qed.

(** Called with a logger, a backend class changes the process only by
    adding events: the registry and the levels of the loggers stay. *)
Lemma adds_Backend_new B loc endl check lg :
  adds (fun _ => True) (Backend_new B loc endl check (Some lg)).
Proof.
  assert (Hq : forall self, adds (fun _ => True) (PyVisaBackend_query self "*IDN?" None)).
  { intros self. apply adds_with_OpenResource. intros h. unfold resource_query.
    repeat first
      [ apply adds_ret; exact I | apply adds_history; exact I
      | apply adds_answer; exact I | apply adds_emit; exact I
      | apply adds_bind; [now intros | | intros ?] ]. }
  assert (Hlevel : adds (fun _ => True) (Logger_level lg)).
  { intros w. exists []. now rewrite after_nil. }
  destruct B as [| |t]; cbn [Backend_new].
  - unfold PyVisaBackend_init, ResourceManager, Logger_log. cbn [default_logger].
    apply adds_bind; [now intros| |intros self; apply adds_ret; exact I].
    apply adds_bind; [now intros| |intros rm0].
    { destruct (String.prefix "linux" sys_platform);
        [|destruct (String.prefix "win32" sys_platform)];
        (apply adds_bind; [now intros | apply adds_emit; exact I
                          | intros; apply adds_ret; exact I]). }
    apply adds_bind; [now intros | apply adds_ret; exact I | intros lg0].
    destruct check.
    + apply adds_bind; [now intros | apply Hq | intros idn].
      apply adds_bind; [now intros | apply adds_emit; exact I
                       | intros; apply adds_ret; exact I].
    + apply adds_bind; [now intros | | intros level].
      { intros w. exists []. now rewrite after_nil. }
      destruct (level <=? DEBUG)%Z; [|apply adds_ret; exact I].
      apply adds_bind; [now intros | apply Hq | intros idn].
      apply adds_bind; [now intros | apply adds_emit; exact I
                       | intros; apply adds_ret; exact I].
  - unfold LoggerBackend_init. cbn [default_logger].
    apply adds_bind; [now intros | apply adds_ret; exact I
                     | intros; apply adds_ret; exact I].
  - unfold TestDouble_init.
    repeat first
      [ apply adds_ret; exact I | apply adds_history; exact I
      | apply adds_outcome; exact I | apply adds_emit; exact I
      | apply adds_bind; [now intros | | intros ?] ].
Qed.

(** The backend a class returns when called with a logger logs to it. *)
Lemma Backend_new_logger B loc endl check lg w b w' :
  Backend_new B loc endl check (Some lg) w = (inr b, w') ->
  match b with
  | PyVisaBackendInst pv => pv_logger pv = lg
  | LoggerBackendInst l => l = lg
  | TestDoubleInst _ => True
  end.
Proof.
  destruct B as [| |t]; cbn [Backend_new]; intros H;
    apply bind_inr in H as (x & w1 & Hx & [= <- <-]); try exact I.
  - destruct (prepare_returns loc endl (Some lg) w)
      as (self & w0 & lib & Hprep & _ & _ & Hlg & _).
    rewrite (init_unfold _ _ check _ _ _ _ Hprep) in Hx.
    assert (Hid : forall level, identify self level w0 = (inr x, w1) -> x = self).
    { intros level Hi. unfold identify in Hi.
      apply bind_inr in Hi as (idn & w2 & _ & Hi).
      apply bind_inr in Hi as (u & w3 & _ & [= <- _]). reflexivity. }
    destruct check; [apply Hid in Hx; now subst|].
    destruct (level_of (pv_logger self) w0 <=? DEBUG)%Z;
      [apply Hid in Hx; now subst|].
    injection Hx as <- _. exact Hlg.
  - cbn in Hx. now injection Hx as <- _.
Qed.

(** X5. The constructor of a driver never changes the level of a logger
    it is given; given none, it sets the level of the logger
    driverlib.visa_driver to INFO, whatever that level was. The driver and
    the backend it builds (transport or logging) log to the same logger,
    and this holds for every subclass that keeps the allow-list. *)
Theorem constructor_logger_levels (cls : gmap string class_attr)
    (location : option string) (endl : string) (check : bool)
    (logger : option string) (w : world)
    (Hcls : driver_class cls) :
  logger_levels
    (snd (VisaDriver_init (new_instance cls) location endl check logger w))
  = driver_levels logger w
  /\ forall d w',
       VisaDriver_init (new_instance cls) location endl check logger w
       = (inr d, w') ->
       inst_dict d !! "logger" = Some (PyLogger (driver_logger logger))
       /\ exists b,
            inst_dict d !! "backend" = Some (PyBackend b)
            /\ match b with
               | PyVisaBackendInst pv => pv_logger pv = driver_logger logger
               | LoggerBackendInst l => l = driver_logger logger
               | TestDoubleInst _ => True
               end.
Proof.
  rewrite (VisaDriver_init_unfold _ _ _ _ _ _ Hcls).
  destruct (adds_Backend_new (selected w) location endl check
              (driver_logger logger)
              (mkWorld (Some (selected w)) (driver_levels logger w) (trace w)))
    as (evs & Hevs & _).
  destruct (Backend_new _ _ _ _ _ _) as [[e|b] w2] eqn:Hnew;
    cbn [snd] in *; subst w2; (split; [reflexivity|]); intros d w' [= <- <-].
  split.
  - cbn. rewrite lookup_insert_ne by discriminate. apply lookup_insert_eq.
  - exists b. split; [cbn; apply lookup_insert_eq|].
    eapply Backend_new_logger, Hnew.
Qed.

End Constructed.

Section Unconstructible.
Context {host : Host}.

(** Construction of the transport backend with a logger: it reaches for
    the instrument exactly when asked to check or when the level of the
    logger is DEBUG or lower, and returns when it does not. *)
Lemma transport_new_trace loc endl check lg w0 :
  exists evs,
    trace (snd (Backend_new PyVisaBackend loc endl check (Some lg) w0))
    = trace w0 ++ evs
    /\ existsb is_io evs = check || (level_of lg w0 <=? DEBUG)%Z
    /\ (check || (level_of lg w0 <=? DEBUG)%Z = false ->
        exists pv w1,
          Backend_new PyVisaBackend loc endl check (Some lg) w0
          = (inr (PyVisaBackendInst pv), w1)).
Proof.
  destruct (prepare_returns loc endl (Some lg) w0)
    as (self & w1 & lib & Hprep & _ & Htrace & Hlg & Hlevel).
  assert (Hnew : Backend_new PyVisaBackend loc endl check (Some lg) w0
    = match (if check then identify self INFO w1
             else if (level_of lg w0 <=? DEBUG)%Z then identify self DEBUG w1
                  else (inr self, w1)) with
      | (inl e, w2) => (inl e, w2)
      | (inr pv, w2) => (inr (PyVisaBackendInst pv), w2)
      end).
  { cbn [Backend_new]. unfold bind, ret.
    now rewrite (init_unfold _ _ check _ _ _ _ Hprep), Hlg, Hlevel. }
  rewrite Hnew. clear Hnew.
  assert (Hio : forall level, exists evs,
    trace (snd (match identify self level w1 with
                | (inl e, w2) => (inl e, w2)
                | (inr pv, w2) => (inr (PyVisaBackendInst pv), w2)
                end)) = trace w0 ++ evs
    /\ existsb is_io evs = true).
  { intros level. destruct (identify_opens self level w1) as (o & rest & Hq).
    exists (EvResourceManager lib
            :: EvOpenResource (rm self) (resource_location self) 1000 o :: rest).
    split; [|reflexivity].
    destruct (identify self level w1) as [[e|pv] w2];
      cbn [snd] in *; rewrite Hq, Htrace, <- app_assoc; reflexivity. }
  destruct check; cbn [orb].
  - destruct (Hio INFO) as (evs & Hevs & Hioevs).
    exists evs. repeat split; try assumption. discriminate.
  - destruct (level_of lg w0 <=? DEBUG)%Z.
    + destruct (Hio DEBUG) as (evs & Hevs & Hioevs).
      exists evs. repeat split; try assumption. discriminate.
    + exists [EvResourceManager lib]. cbn. repeat split; try assumption.
      intros _. eauto.
Qed.

(** X6. On the transport backend, the constructor of a driver reaches for
    the instrument exactly when [check] is set or a logger is given whose
    level is DEBUG or lower (a logger whose level was never set counts);
    with no logger and no check it only creates the resource manager, and
    then it always returns. *)
Theorem driver_construction_io (cls : gmap string class_attr)
    (location : option string) (endl : string) (check : bool)
    (logger : option string) (w : world)
    (Hcls : driver_class cls) (Hsel : selected w = PyVisaBackend) :
  exists evs,
    trace (snd (VisaDriver_init (new_instance cls) location endl check logger w))
    = trace w ++ evs
    /\ existsb is_io evs
       = check || match logger with
                  | Some l => (level_of l w <=? DEBUG)%Z
                  | None => false
                  end
    /\ (check || match logger with
                 | Some l => (level_of l w <=? DEBUG)%Z
                 | None => false
                 end = false ->
        exists d,
          fst (VisaDriver_init (new_instance cls) location endl check logger w)
          = inr d).
Proof.
  rewrite (VisaDriver_init_unfold _ _ _ _ _ _ Hcls), Hsel.
  destruct (transport_new_trace location endl check (driver_logger logger)
              (mkWorld (Some PyVisaBackend) (driver_levels logger w) (trace w)))
    as (evs & Htrace & Hio & Hret).
  assert (Hlevel :
    (level_of (driver_logger logger)
       (mkWorld (Some PyVisaBackend) (driver_levels logger w) (trace w))
     <=? DEBUG)%Z
    = match logger with
      | Some l => (level_of l w <=? DEBUG)%Z
      | None => false
      end).
  { destruct logger as [l|]; [reflexivity|].
    unfold level_of. cbn. now rewrite lookup_insert_eq. }
  rewrite Hlevel in Hio, Hret.
  exists evs. split; [|split; [exact Hio|]].
  - destruct (Backend_new _ _ _ _ _ _) as [[e|b] w2]; exact Htrace.
  - intros Hquiet. destruct (Hret Hquiet) as (pv & w1 & ->). eauto.
Qed.

Lemma default_init_returns cls loc endl w :
  driver_class cls ->
  selected w = PyVisaBackend \/ selected w = LoggerBackend ->
  exists d w', VisaDriver_init (new_instance cls) loc endl false None w = (inr d, w').
Proof.
  intros Hcls Hsel. rewrite (VisaDriver_init_unfold _ _ _ _ _ _ Hcls).
  destruct Hsel as [-> | ->].
  - destruct (transport_new_trace loc endl false (driver_logger None)
                (mkWorld (Some PyVisaBackend) (driver_levels None w) (trace w)))
      as (evs & _ & _ & Hret).
    destruct Hret as (pv & w1 & ->); [|eauto].
    unfold level_of. cbn. now rewrite lookup_insert_eq.
  - cbn. eauto.
Qed.

(** After [VisaDriver.__init__], the guard refuses every name that is
    neither an attribute of the class nor [logger] or [backend]. *)
Lemma subclass_assignment_rejected cls name value loc endl check logger w :
  driver_class cls ->
  cls !! name = None ->
  name <> "logger" -> name <> "backend" ->
  (do self <- VisaDriver_init (new_instance cls) loc endl check logger ;;
   LimitedAttributeSetter_setattr self name value) w
  = match VisaDriver_init (new_instance cls) loc endl check logger w with
    | (inl e, w1) => (inl e, w1)
    | (inr _, w1) => (inl (no_such_attribute name), w1)
    end.
Proof.
  intros Hcls Hname Hlogger Hbackend. unfold bind.
  rewrite (VisaDriver_init_unfold _ _ _ _ _ _ Hcls).
  destruct Hcls as (Hallow & _ & _).
  destruct (Backend_new _ _ _ _ _ _) as [[e|b] w2]; [reflexivity|].
  rewrite setattr_plain.
  - unfold present, allow_listed.
    rewrite !plain_lookup_stored_ne, !plain_lookup_fresh by congruence.
    rewrite Hname, Hallow. cbn.
    apply String.eqb_neq in Hlogger, Hbackend. now rewrite Hlogger, Hbackend.
  - unfold is_property. cbn. now rewrite Hname.
  - right. unfold allow_list_plain, is_property. cbn.
    rewrite !plain_lookup_stored_ne, !plain_lookup_fresh by discriminate.
    now rewrite Hallow.
Qed.

Lemma YokogawaGS200_driver_class body : driver_class (YokogawaGS200_class body).
Proof. repeat split; vm_compute; reflexivity. Qed.

Lemma AFG_driver_class body : driver_class (AFG_class body).
Proof. repeat split; vm_compute; reflexivity. Qed.

(** X7. [YokogawaGS200(...)] never returns an instance: when
    [VisaDriver.__init__] raises, so does it; when that returns, the
    assignment [self.mode = mode] is refused by the guard, because [mode]
    is neither an attribute of the class (it is only annotated) nor in
    the allow-list. With the transport or the logging backend in force the
    call raises this [TypeError]. This holds whatever the bodies of the
    properties of the class are. *)
Theorem yokogawa_cannot_be_constructed (body : string -> property)
    (location : string) (mode : pyvalue) (w : world) :
  YokogawaGS200_new body location mode w
  = match VisaDriver_init (new_instance (YokogawaGS200_class body))
            (Some location) "" false None w with
    | (inl e, w1) => (inl e, w1)
    | (inr _, w1) => (inl (no_such_attribute "mode"), w1)
    end
  /\ (selected w = PyVisaBackend \/ selected w = LoggerBackend ->
      fst (YokogawaGS200_new body location mode w)
      = inl (no_such_attribute "mode")).
Proof.
  assert (Hnew : YokogawaGS200_new body location mode w
    = match VisaDriver_init (new_instance (YokogawaGS200_class body))
              (Some location) "" false None w with
      | (inl e, w1) => (inl e, w1)
      | (inr _, w1) => (inl (no_such_attribute "mode"), w1)
      end).
  { apply subclass_assignment_rejected;
      [apply YokogawaGS200_driver_class | vm_compute; reflexivity
      | discriminate | discriminate]. }
  split; [exact Hnew|]. intros Hsel. rewrite Hnew.
  destruct (default_init_returns _ (Some location) ""%string w
              (YokogawaGS200_driver_class body) Hsel) as (d & w' & ->).
  reflexivity.
Qed.

(** X8. [AFG(...)] never returns an instance either: after
    [VisaDriver.__init__] the assignment [self.channel_idx = 1] is refused
    by the guard, [channel_idx] being neither an attribute of the class
    nor in the allow-list. *)
Theorem afg_cannot_be_constructed (body : string -> property)
    (location : string) (model_name : pyvalue) (w : world) :
  AFG_new body location model_name w
  = match VisaDriver_init (new_instance (AFG_class body))
            (Some location) "" false None w with
    | (inl e, w1) => (inl e, w1)
    | (inr _, w1) => (inl (no_such_attribute "channel_idx"), w1)
    end
  /\ (selected w = PyVisaBackend \/ selected w = LoggerBackend ->
      fst (AFG_new body location model_name w)
      = inl (no_such_attribute "channel_idx")).
Proof.
  assert (Hnew : AFG_new body location model_name w
    = match VisaDriver_init (new_instance (AFG_class body))
              (Some location) "" false None w with
      | (inl e, w1) => (inl e, w1)
      | (inr _, w1) => (inl (no_such_attribute "channel_idx"), w1)
      end).
  { apply subclass_assignment_rejected;
      [apply AFG_driver_class | vm_compute; reflexivity
      | discriminate | discriminate]. }
  split; [exact Hnew|]. intros Hsel. rewrite Hnew.
  destruct (default_init_returns _ (Some location) ""%string w
              (AFG_driver_class body) Hsel) as (d & w' & ->).
  reflexivity.
Qed.

End Unconstructible.

(** ** Methods of the instrument drivers *)

Lemma value_to_bool_cases value :
  match boolean_like value with
  | Some b => _value_to_bool value = inr b
  | None => exists msg, _value_to_bool value = inl (ValueError msg)
  end.
Proof.
  destruct value as [|b|z|m e|s|l|n|b|q];
    cbn [boolean_like _value_to_bool]; eauto.
  - destruct z as [|p|p]; simpl; eauto.
    destruct p; simpl; eauto.
  - rewrite lower_on, lower_off.
    destruct (existsb (String.eqb s) on_spellings); [reflexivity|].
    destruct (existsb (String.eqb s) off_spellings); [reflexivity|].
    eauto.
Qed.


Lemma py_gt_number v q c :
  number v = Some q ->
  py_gt v c = inr (negb (Qle_bool q (inject_Z c))).
Proof. unfold py_gt. now intros ->. Qed.

Lemma Qle_bool_false_lt x y : Qle_bool x y = false <-> (y < x)%Q.
Proof.
  split.
  - intros H. apply Qnot_le_lt. intros Hle.
    apply Qle_bool_iff in Hle. congruence.
  - intros H. destruct (Qle_bool x y) eqn:Hb; [|reflexivity].
    apply Qle_bool_iff in Hb. exfalso. now apply (Qlt_not_le _ _ H).
Qed.

Section Instruments.
Context {host : Host} {runtime : PyRuntime}.

(** X9. Each setter of an on/off state of [KeysightNA] and of
    [RhodeSchwarzSource] sends its ON command for an input that stands
    for [True], its OFF command for one that stands for [False], and on
    any other input raises [ValueError] before anything is sent. *)
Theorem onoff_setters_validate :
  Forall (fun entry : (attrs -> pyvalue -> M unit) * string * string =>
            forall self value w,
              match boolean_like value with
              | Some true =>
                  fst (fst entry) self value w
                  = VisaDriver_write self (snd (fst entry)) None w
              | Some false =>
                  fst (fst entry) self value w
                  = VisaDriver_write self (snd entry) None w
              | None =>
                  exists msg,
                    fst (fst entry) self value w = (inl (ValueError msg), w)
              end)
    onoff_setters.
Proof.
  repeat constructor; intros self value w; cbn [fst snd];
    unfold KeysightNA_set_output, KeysightNA_set_ext_trig,
      KeysightNA_set_trigger_continuous, RhodeSchwarzSource_set_output,
      RhodeSchwarzSource_set_modulation;
    unfold bind at 1;
    pose proof (value_to_bool_cases value) as Hv;
    destruct (boolean_like value) as [[|]|];
    try (rewrite Hv; reflexivity);
    destruct Hv as (msg & ->); exists msg; reflexivity.
Qed.


(** X11. [set_frequency_sweep] of [KeysightNA] refuses more than 10001
    points with [ValueError], and a number of points that is no number
    with [TypeError], before anything is sent; up to 10001 points it
    sends start, stop and number of points in this order. *)
Theorem keysight_sweep_points (self : attrs) (f_min f_max n_freq : pyvalue)
    (w : world) :
  match number n_freq with
  | None =>
      exists msg,
        KeysightNA_set_frequency_sweep self f_min f_max n_freq w
        = (inl (TypeError msg), w)
  | Some q =>
      ((inject_Z 10001 < q)%Q ->
       KeysightNA_set_frequency_sweep self f_min f_max n_freq w
       = (inl (ValueError "Maximum number of points is 10 001"), w))
      /\ ((q <= inject_Z 10001)%Q ->
          KeysightNA_set_frequency_sweep self f_min f_max n_freq w
          = (do start <- answer (py_format "" f_min) ;;
             VisaDriver_write self (":SENS1:FREQ:STAR " ++ start)%string None ;;;
             do stop <- answer (py_format "" f_max) ;;
             VisaDriver_write self (":SENS1:FREQ:STOP " ++ stop)%string None ;;;
             do points <- answer (py_format "" n_freq) ;;
             VisaDriver_write self (":SENS1:SWE:POIN " ++ points)%string None) w)
  end.
Proof.
  unfold KeysightNA_set_frequency_sweep.
  destruct (number n_freq) as [q|] eqn:Hq.
  - rewrite (py_gt_number _ _ _ Hq). split.
    + intros Hmany. apply Qle_bool_false_lt in Hmany.
      unfold bind at 1. cbn. now rewrite Hmany.
    + intros Hfew. apply Qle_bool_iff in Hfew.
      unfold bind at 1. cbn. now rewrite Hfew.
  - unfold py_gt. rewrite Hq. eexists. reflexivity.
Qed.

(** X12. [is_completed] of [KeysightNA] on the transport backend with
    the instrument out of reach: when [open_resource] raises
    [VisaIOError], [is_completed] does not raise but returns [False],
    after that one call; any other exception of [open_resource] goes on to
    the caller. *)
Theorem is_completed_when_unreachable (self0 : attrs) (pv : PyVisaBackendObj)
    (w : world) (e : exn)
    (Hopen : visa_open_resource (trace w) (rm pv) (resource_location pv) 1000
             = Some e) :
  KeysightNA_is_completed
    (<["backend" := PyBackend (PyVisaBackendInst pv)]> self0) w
  = (match e with
     | VisaIOError _ => inr (PyBool false)
     | _ => inl e
     end,
     after w [EvOpenResource (rm pv) (resource_location pv) 1000 None]).
Proof.
  unfold KeysightNA_is_completed, VisaDriver_ask, bind, self_backend.
  rewrite lookup_insert_eq. cbn [ret Backend_query].
  unfold PyVisaBackend_query.
  rewrite (with_OpenResource_unopened _ _ _ e) by exact Hopen.
  now destruct e.
Qed.

(** X13. Assigning [output] of a [KeysightNA] first reads it: the guard
    asks whether the attribute exists, which runs the getter and so
    queries the instrument. When the getter returns, the setter runs
    next; when the getter raises anything but [AttributeError], for
    instance because the reply is no integer, the assignment raises the
    same and the setter never runs. *)
Theorem keysight_output_assignment_reads_first (self : attrs)
    (value : pyvalue) (w : world) :
  let na := {| inst_class := KeysightNA_class; inst_dict := self |} in
  match KeysightNA_get_output self w with
  | (inr _, w1) =>
      LimitedAttributeSetter_setattr na "output" value w
      = (KeysightNA_set_output self value ;;; ret na) w1
  | (inl (AttributeError _), _) => True
  | (inl e, w1) =>
      LimitedAttributeSetter_setattr na "output" value w = (inl e, w1)
  end.
Proof.
  intros na.
  assert (Hcls : KeysightNA_class !! "output"
                 = Some (ClassProperty {| fget := KeysightNA_get_output;
                                          fset := Some KeysightNA_set_output |}))
    by (vm_compute; reflexivity).
  remember (LimitedAttributeSetter_setattr na "output" value w) as R eqn:HR.
  unfold LimitedAttributeSetter_setattr, hasattr, getattr, object_setattr in HR.
  unfold bind at 1 in HR. cbn [inst_class inst_dict na] in HR.
  rewrite Hcls in HR. cbn [fget fset] in HR. cbv beta in HR.
  destruct (KeysightNA_get_output self w) as [[e|v] w1].
  - destruct e; try exact I; subst R; reflexivity.
  - subst R. unfold bind at 1. cbn [ret]. cbv beta iota. reflexivity.
Qed.

End Instruments.

(** ** What the guard leaves open *)

(** X14. The allow-list is not frozen: where the class declares
    [_allow_attrs], the guard lets the instance assign it, and every name
    of the list assigned (that is not a property) is assignable from then
    on. *)
Theorem allow_list_can_be_replaced (self : instance) (l : list pyvalue)
    (name : string) (value : pyvalue) (w w1 : world)
    (Hdeclared : present self "_allow_attrs" = true)
    (Hplain : is_property self "_allow_attrs" = false)
    (Hname : is_property self name = false)
    (Hlisted : existsb (names_text name) l = true) :
  LimitedAttributeSetter_setattr self "_allow_attrs" (PyList l) w
  = (inr (stored self "_allow_attrs" (PyList l)), w)
  /\ LimitedAttributeSetter_setattr (stored self "_allow_attrs" (PyList l))
       name value w1
     = (inr (stored (stored self "_allow_attrs" (PyList l)) name value), w1).
Proof.
  split.
  - rewrite setattr_plain by (try left; assumption). now rewrite Hdeclared.
  - assert (Hlookup : plain_lookup (stored self "_allow_attrs" (PyList l))
                        "_allow_attrs" = Some (PyList l)).
    { unfold plain_lookup, stored. cbn. now rewrite lookup_insert_eq. }
    apply setattr_allow_listed.
    + exact Hname.
    + unfold allow_list_plain. rewrite Hlookup.
      unfold is_property in *. cbn. now rewrite Hplain.
    + unfold allow_listed. now rewrite Hlookup.
Qed.

Section Rebound.
Context {host : Host}.

(** X15. The backend of a driver is not frozen either: the guard lets
    [backend] be assigned once it exists. Assigned another backend, every
    operation of the driver comes down to methods of that one; assigned a
    value that is no backend, every operation raises [AttributeError] and
    nothing is sent. *)
Theorem backend_can_be_replaced (d : instance) (value : pyvalue) (w : world)
    (Hexists : present d "backend" = true)
    (Hplain : is_property d "backend" = false) :
  LimitedAttributeSetter_setattr d "backend" value w
  = (inr (stored d "backend" value), w)
  /\ match value with
     | PyBackend b =>
         forall c w1,
           run_call c (inst_dict (stored d "backend" value)) w1
           = on_backend c b w1
     | _ =>
         forall c w1,
         exists msg,
           run_call c (inst_dict (stored d "backend" value)) w1
           = (inl (AttributeError msg), w1)
     end.
Proof.
  split.
  - rewrite setattr_plain by (try left; assumption). now rewrite Hexists.
  - assert (Hlookup : inst_dict (stored d "backend" value) !! "backend"
                      = Some value) by (cbn; apply lookup_insert_eq).
    destruct value;
      try (intros c w1; eexists;
           destruct c; cbn [run_call];
           unfold returns_none, returns_text, VisaDriver_write, VisaDriver_ask,
             VisaDriver_read, VisaDriver_write_and_read, VisaDriver_close,
             VisaDriver_idn, VisaDriver_get_error, VisaDriver_print_error,
             VisaDriver_reset, VisaDriver_clear, VisaDriver_get_error,
             VisaDriver_ask, VisaDriver_write, bind, self_backend;
           rewrite Hlookup; reflexivity).
    intros c w1. now apply run_call_on_backend.
Qed.

End Rebound.

(** ** The further properties at work *)

(** The reply of the bench to an identification query ends in a line
    feed; what the transport backend returns does not. *)
Lemma transport_replies_trimmed_witness :
  run_transport (host := bench_host) (TransportQuery "*IDN?" None) gs200
    start_world
  = (inr (PyStr "ACME,GS200,0,1.0"),
     snd (run_transport (host := bench_host) (TransportQuery "*IDN?" None)
            gs200 start_world))
  /\ strip "ACME,GS200,0,1.0" = "ACME,GS200,0,1.0"%string.
Proof.
  split; [reflexivity|].
  apply (transport_replies_trimmed (host := bench_host)
           (TransportQuery "*IDN?" None) gs200 start_world
           "ACME,GS200,0,1.0"%string
           (snd (run_transport (host := bench_host) (TransportQuery "*IDN?" None)
                   gs200 start_world))).
  reflexivity.
Defined.

(** A driver on the padded double: [read] trims what the double returns. *)
Lemma driver_read_trimmed_witness :
  VisaDriver_read (host := bench_host)
    (driver_with (TestDoubleInst padded_double)) None start_world
  = (inr "1"%string,
     snd (VisaDriver_read (host := bench_host)
            (driver_with (TestDoubleInst padded_double)) None start_world))
  /\ strip "1" = "1"%string.
Proof.
  split; [reflexivity|].
  apply (driver_read_trimmed (host := bench_host)
           (driver_with (TestDoubleInst padded_double)) None start_world
           "1"%string
           (snd (VisaDriver_read (host := bench_host)
                   (driver_with (TestDoubleInst padded_double)) None
                   start_world))).
  reflexivity.
Defined.

(** With no instrument at the address a write raises what
    [open_resource] raised, after that one call. *)
Lemma unreachable_resource_raises_witness :
  visa_open_resource (Host := unplugged_host) (trace start_world) (rm gs200)
    (resource_location gs200) 1000
  = Some (VisaIOError "VI_ERROR_RSRC_NFOUND")
  /\ run_transport (host := unplugged_host)
       (TransportWrite "OUTP ON" (Some 2000%Z)) gs200 start_world
     = (inl (VisaIOError "VI_ERROR_RSRC_NFOUND"),
        after start_world
          [EvOpenResource "@py" (Some "GPIB0::1::INSTR"%string) 1000 None]).
Proof.
  split; [reflexivity|].
  apply (unreachable_resource_raises (host := unplugged_host)
           (TransportWrite "OUTP ON" (Some 2000%Z)) gs200 start_world
           (VisaIOError "VI_ERROR_RSRC_NFOUND")).
  reflexivity.
Defined.

(** On the bench whose instrument never answers, a reset and a query with
    a timeout both raise, and both handles are closed. *)
Lemma driver_calls_leave_no_handle_open_witness :
  (forall tr h t, visa_set_timeout (Host := silent_host) tr h t = None)
  /\ exists evs,
       snd (run_calls (host := silent_host)
              [CallReset; CallAsk "MEAS?" (Some 2000%Z)]
              (driver_with (PyVisaBackendInst gs200)) start_world)
       = after start_world evs
       /\ forall h, opens h evs = closes h evs.
Proof.
  split; [reflexivity|].
  apply (driver_calls_leave_no_handle_open (host := silent_host)
           [CallReset; CallAsk "MEAS?" (Some 2000%Z)]
           (driver_with (PyVisaBackendInst gs200)) start_world).
  left. reflexivity.
Defined.

(** A [KeysightNA] built with no logger on the bench: the level of the
    driver's logger is INFO afterwards. *)
Lemma constructor_logger_levels_witness :
  driver_class (KeysightNA_class (host := bench_host))
  /\ logger_levels
       (snd (VisaDriver_init (host := bench_host)
               (new_instance (KeysightNA_class (host := bench_host)))
               (Some "GPIB0::1::INSTR"%string) newline false None start_world))
     = <["driverlib.visa_driver"%string := INFO]> ∅.
Proof.
  assert (Hcls : driver_class (KeysightNA_class (host := bench_host)))
    by (repeat split; vm_compute; reflexivity).
  split; [exact Hcls|].
  apply (proj1 (constructor_logger_levels (host := bench_host)
                  (KeysightNA_class (host := bench_host))
                  (Some "GPIB0::1::INSTR"%string) newline false None
                  start_world Hcls)).
Defined.

(** Built on the bench with a logger whose level was never set, a driver
    queries the instrument although no check was asked for. *)
Lemma driver_construction_io_witness :
  driver_class (VisaDriver_class (host := bench_host))
  /\ selected start_world = PyVisaBackend
  /\ exists evs,
       trace (snd (VisaDriver_init (host := bench_host)
                     (new_instance (VisaDriver_class (host := bench_host)))
                     (Some "GPIB0::1::INSTR"%string) newline false
                     (Some "bench"%string) start_world))
       = trace start_world ++ evs
       /\ existsb is_io evs = true.
Proof.
  assert (Hcls : driver_class (VisaDriver_class (host := bench_host)))
    by (repeat split; vm_compute; reflexivity).
  split; [exact Hcls|]. split; [reflexivity|].
  destruct (driver_construction_io (host := bench_host)
              (VisaDriver_class (host := bench_host))
              (Some "GPIB0::1::INSTR"%string) newline false
              (Some "bench"%string) start_world Hcls eq_refl)
    as (evs & Htrace & Hio & _).
  exists evs. split; [exact Htrace | exact Hio].
Defined.

Lemma yokogawa_cannot_be_constructed_witness :
  (selected start_world = PyVisaBackend \/ selected start_world = LoggerBackend)
  /\ fst (YokogawaGS200_new (host := bench_host) idle_property
            "GPIB0::1::INSTR" (PyStr "voltage") start_world)
     = inl (no_such_attribute "mode").
Proof.
  split; [left; reflexivity|].
  apply (proj2 (yokogawa_cannot_be_constructed (host := bench_host)
                  idle_property "GPIB0::1::INSTR"%string (PyStr "voltage")
                  start_world)).
  left. reflexivity.
Defined.

Lemma afg_cannot_be_constructed_witness :
  (selected (snd (set_backend LoggerBackend start_world)) = PyVisaBackend
   \/ selected (snd (set_backend LoggerBackend start_world)) = LoggerBackend)
  /\ fst (AFG_new (host := bench_host) idle_property "GPIB0::1::INSTR"
            (PyStr "AFG3102") (snd (set_backend LoggerBackend start_world)))
     = inl (no_such_attribute "channel_idx").
Proof.
  split; [right; reflexivity|].
  apply (proj2 (afg_cannot_be_constructed (host := bench_host)
                  idle_property "GPIB0::1::INSTR"%string (PyStr "AFG3102")
                  (snd (set_backend LoggerBackend start_world)))).
  right. reflexivity.
Defined.


Lemma keysight_sweep_points_witness :
  KeysightNA_set_frequency_sweep (host := bench_host) (runtime := text_runtime)
    (inst_dict bench_driver) (PyInt 1000000) (PyInt 2000000) (PyInt 10002)
    start_world
  = (inl (ValueError "Maximum number of points is 10 001"), start_world)
  /\ trace (snd (KeysightNA_set_frequency_sweep (host := bench_host)
                   (runtime := text_runtime) (inst_dict bench_driver)
                   (PyInt 1000000) (PyInt 2000000) (PyInt 10001) start_world))
     = [EvLog "driverlib.visa_driver" INFO "Write: :SENS1:FREQ:STAR 1000000.";
        EvLog "driverlib.visa_driver" INFO "Write: :SENS1:FREQ:STOP 2000000.";
        EvLog "driverlib.visa_driver" INFO "Write: :SENS1:SWE:POIN 10001."].
Proof.
  split.
  - apply (proj1 (keysight_sweep_points (host := bench_host)
                    (runtime := text_runtime) (inst_dict bench_driver)
                    (PyInt 1000000) (PyInt 2000000) (PyInt 10002) start_world)).
    unfold Qlt; cbn; lia.
  - rewrite (proj2 (keysight_sweep_points (host := bench_host)
                      (runtime := text_runtime) (inst_dict bench_driver)
                      (PyInt 1000000) (PyInt 2000000) (PyInt 10001) start_world)).
    + reflexivity.
    + unfold Qle; cbn; lia.
Defined.

Lemma is_completed_when_unreachable_witness :
  visa_open_resource (Host := unplugged_host) (trace start_world) (rm gs200)
    (resource_location gs200) 1000
  = Some (VisaIOError "VI_ERROR_RSRC_NFOUND")
  /\ KeysightNA_is_completed (host := unplugged_host)
       (<["backend" := PyBackend (PyVisaBackendInst gs200)]> ∅) start_world
     = (inr (PyBool false),
        after start_world
          [EvOpenResource "@py" (Some "GPIB0::1::INSTR"%string) 1000 None]).
Proof.
  split; [reflexivity|].
  apply (is_completed_when_unreachable (host := unplugged_host) ∅ gs200
           start_world (VisaIOError "VI_ERROR_RSRC_NFOUND")).
  reflexivity.
Defined.

(** A driver replaces its allow-list and then assigns a name the class
    never knew. *)
Lemma allow_list_can_be_replaced_witness :
  present bench_driver "_allow_attrs" = true
  /\ is_property bench_driver "_allow_attrs" = false
  /\ is_property bench_driver "channel_idx" = false
  /\ LimitedAttributeSetter_setattr
       (stored bench_driver "_allow_attrs" (PyList [PyStr "channel_idx"]))
       "channel_idx" (PyInt 1) start_world
     = (inr (stored (stored bench_driver "_allow_attrs"
                       (PyList [PyStr "channel_idx"]))
               "channel_idx" (PyInt 1)), start_world).
Proof.
  split; [reflexivity|]. split; [reflexivity|]. split; [reflexivity|].
  apply (proj2 (allow_list_can_be_replaced bench_driver [PyStr "channel_idx"]
                  "channel_idx" (PyInt 1) start_world start_world
                  eq_refl eq_refl eq_refl eq_refl)).
Defined.

(** A driver on the logging backend is given the padded double; the next
    [ask] goes to the double. *)
Lemma backend_can_be_replaced_witness :
  present bench_driver "backend" = true
  /\ is_property bench_driver "backend" = false
  /\ LimitedAttributeSetter_setattr bench_driver "backend"
       (PyBackend (TestDoubleInst padded_double)) start_world
     = (inr (stored bench_driver "backend"
               (PyBackend (TestDoubleInst padded_double))), start_world)
  /\ fst (run_call (host := bench_host) (CallAsk "OUTP?" None)
            (inst_dict (stored bench_driver "backend"
                          (PyBackend (TestDoubleInst padded_double))))
            start_world)
     = inr (PyStr " 1 ").
Proof.
  split; [reflexivity|]. split; [reflexivity|].
  destruct (backend_can_be_replaced (host := bench_host) bench_driver
              (PyBackend (TestDoubleInst padded_double)) start_world
              eq_refl eq_refl) as [Hset Hcalls].
  split; [exact Hset|].
  rewrite (Hcalls (CallAsk "OUTP?" None) start_world). reflexivity.
Defined.
